(** * Dashboard components of nhost: a shallow embedding and its properties

    The development embeds four React components of the dashboard
    - [CustomDomains] (pages/[workspaceSlug]/[appSlug]/settings/custom-domains),
    - [OverviewMetrics] with its local [MetricsCard],
    - [HasuraConnectionInfo],
    - [AzureADProviderSettings] with its [validationSchema] and its submit
      handler [handleProviderUpdate],
    as functions from the values their hooks return to the React element
    tree they return (or to the error they throw).  What the components
    import from other modules of the dashboard and from npm packages is
    collected in the class [Imports]; every result below holds for all
    implementations of it. *)

From stdpp Require Import base option list strings pretty gmap.
From Stdlib Require Import NArith ZArith.

#[local] Set Warnings "-register-all".

(** ** JavaScript values *)

Module JS.

(** A JavaScript string is a sequence of UTF-16 code units; [length] of
    the list is the string's [.length]. *)
Definition jsstring := list N.

(** An ASCII literal of the source. *)
Definition lit (s : string) : jsstring :=
  Ascii.N_of_ascii <$> String.list_ascii_of_string s.

(** U+2022, the bullet of the masked secret. *)
Definition bullet : jsstring := [0x2022%N].

(** U+1F680 as its surrogate pair. *)
Definition rocket : jsstring := [0xD83D%N; 0xDE80%N].

(** Truthiness of [string | undefined]: [undefined] and [''] are falsy. *)
Definition truthy (s : option jsstring) : bool :=
  match s with
  | Some (_ :: _) => true
  | _ => false
  end.

(** [s || d] on [string | undefined]. *)
Definition str_or (s : option jsstring) (d : jsstring) : jsstring :=
  match s with
  | Some (c :: r) => c :: r
  | _ => d
  end.

(** [b || d] on [boolean | undefined]. *)
Definition bool_or (b : option bool) (d : bool) : bool :=
  match b with
  | Some true => true
  | _ => d
  end.

(** [Array(n)]: [n] empty slots. *)
Definition Array (n : nat) : list (option jsstring) := replicate n None.

(** [arr.fill(x)]: every slot becomes [x]. *)
Definition fill (x : jsstring) (arr : list (option jsstring))
  : list (option jsstring) :=
  (fun _ => Some x) <$> arr.

(** [arr.join(sep)]: empty slots print as the empty string. *)
Fixpoint join (sep : jsstring) (arr : list (option jsstring)) : jsstring :=
  match arr with
  | [] => []
  | [x] => default [] x
  | x :: rest => default [] x ++ sep ++ join sep rest
  end.

End JS.
Import JS.

(** Optional chaining [o?.f] when [f] itself may be [undefined]. *)
Notation "o ?. f" := (mbind (M := option) f o)
  (at level 50, left associativity).

(** ** Apollo client: query results and settled promises *)

Module Apollo.

Record ApolloError := { message : jsstring }.

(** What a component can throw while rendering, and what a promise can
    reject with. *)
Inductive Thrown :=
| ThrownApolloError (e : ApolloError)
| ThrownTypeError (access : string).

Inductive FetchPolicy := CacheFirst | CacheOnly | NetworkOnly.

(** The triple every generated query hook returns. *)
Record QueryResult (D : Type) := {
  data : option D;
  loading : bool;
  error : option ApolloError;
}.
Arguments data {D}.
Arguments loading {D}.
Arguments error {D}.

(** A promise, seen at the time it is awaited. *)
Inductive Settled (A : Type) :=
| Fulfilled (a : A)
| Rejected (reason : Thrown).
Arguments Fulfilled {A}.
Arguments Rejected {A}.

End Apollo.
Import Apollo.

(** ** React elements *)

Module React.

(** What an event handler does once the event fires. *)
Inductive Action :=
| ACopy (text label : jsstring)        (* copy(text, label) *)
| ACallback (name : string)            (* a callback prop handed down *)
| AStopPropagationThen (a : Action).   (* e.stopPropagation(); a *)

Inductive PropVal :=
| VStr (s : jsstring)
| VNum (n : Z)
| VBool (b : bool)
| VUndefined
| VHandler (a : Action)
| VElem (e : Element)
| VObj (fields : list (string * PropVal))
with Element :=
| El (tag : string) (props : list (string * PropVal))
     (children : list Element)
| TextNode (s : jsstring).

Definition str (s : string) : PropVal := VStr (lit s).

(** [{s && <element/>}] for [s : string | undefined]: [undefined] and the
    empty string render nothing. *)
Definition when_truthy (s : option jsstring) (e : jsstring -> Element)
  : list Element :=
  match s with
  | Some (c :: r) => [e (c :: r)]
  | _ => []
  end.

(** Number of elements of type [t] in a tree, element-valued props
    included. *)
Fixpoint occurrences (t : string) (e : Element) : nat :=
  match e with
  | TextNode _ => 0
  | El tag props kids =>
      (if String.eqb tag t then 1 else 0)
      + sum_list ((fun p => occurrences_val t p.2) <$> props)
      + sum_list (occurrences t <$> kids)
  end
with occurrences_val (t : string) (v : PropVal) : nat :=
  match v with
  | VElem e => occurrences t e
  | VObj fs => sum_list ((fun p => occurrences_val t p.2) <$> fs)
  | _ => 0
  end.

(** The text nodes of a tree, left to right, element-valued props first. *)
Fixpoint texts (e : Element) : list jsstring :=
  match e with
  | TextNode s => [s]
  | El _ props kids =>
      concat ((fun p => texts_val p.2) <$> props) ++ concat (texts <$> kids)
  end
with texts_val (v : PropVal) : list jsstring :=
  match v with
  | VElem e => texts e
  | VObj fs => concat ((fun p => texts_val p.2) <$> fs)
  | _ => []
  end.

(** The event handlers of a tree, in the same order. *)
Fixpoint handlers (e : Element) : list Action :=
  match e with
  | TextNode _ => []
  | El _ props kids =>
      concat ((fun p => handlers_val p.2) <$> props)
      ++ concat (handlers <$> kids)
  end
with handlers_val (v : PropVal) : list Action :=
  match v with
  | VHandler a => [a]
  | VElem e => handlers e
  | VObj fs => concat ((fun p => handlers_val p.2) <$> fs)
  | _ => []
  end.

Definition is_handler (v : PropVal) : bool :=
  match v with
  | VHandler _ => true
  | _ => false
  end.

(** The props that are not event handlers, each painted by [paint]. *)
Definition paint_props (paint : PropVal -> PropVal)
  : list (string * PropVal) -> list (string * PropVal) :=
  fix go (ps : list (string * PropVal)) :=
    match ps with
    | [] => []
    | (n, v) :: rest =>
        if is_handler v then go rest else (n, paint v) :: go rest
    end.

(** What is painted: the tree without its event handlers. *)
Fixpoint painted (e : Element) : Element :=
  match e with
  | TextNode s => TextNode s
  | El tag props kids =>
      El tag (paint_props painted_val props) (painted <$> kids)
  end
with painted_val (v : PropVal) : PropVal :=
  match v with
  | VElem e => VElem (painted e)
  | VObj fs => VObj (paint_props painted_val fs)
  | other => other
  end.

(** Induction on trees, through the lists of props and children. *)
Section Induction.
Variables (P : Element -> Prop) (Q : PropVal -> Prop).
Hypotheses
  (HText : forall s, P (TextNode s))
  (HEl : forall tag props kids,
      Forall (fun q => Q q.2) props -> Forall P kids ->
      P (El tag props kids))
  (HStr : forall s, Q (VStr s))
  (HNum : forall n, Q (VNum n))
  (HBool : forall b, Q (VBool b))
  (HUndefined : Q VUndefined)
  (HHandler : forall a, Q (VHandler a))
  (HElem : forall e, P e -> Q (VElem e))
  (HObj : forall fs, Forall (fun q => Q q.2) fs -> Q (VObj fs)).

Fixpoint Element_nested_ind (e : Element) : P e :=
  match e with
  | TextNode s => HText s
  | El tag props kids =>
      HEl tag props kids
        ((fix go (ps : list (string * PropVal))
            : Forall (fun q => Q q.2) ps :=
            match ps with
            | [] => List.Forall_nil _
            | q :: rest =>
                List.Forall_cons (fun q => Q q.2) q rest (PropVal_nested_ind q.2) (go rest)
            end) props)
        ((fix go (ks : list Element) : Forall P ks :=
            match ks with
            | [] => List.Forall_nil _
            | k :: rest =>
                List.Forall_cons P k rest (Element_nested_ind k) (go rest)
            end) kids)
  end
with PropVal_nested_ind (v : PropVal) : Q v :=
  match v with
  | VStr s => HStr s
  | VNum n => HNum n
  | VBool b => HBool b
  | VUndefined => HUndefined
  | VHandler a => HHandler a
  | VElem e => HElem e (Element_nested_ind e)
  | VObj fs =>
      HObj fs
        ((fix go (ps : list (string * PropVal))
            : Forall (fun q => Q q.2) ps :=
            match ps with
            | [] => List.Forall_nil _
            | q :: rest =>
                List.Forall_cons (fun q => Q q.2) q rest (PropVal_nested_ind q.2) (go rest)
            end) fs)
  end.
End Induction.

(** [props.a.b.c] on a prop list. *)
Fixpoint prop (name : string) (props : list (string * PropVal))
  : option PropVal :=
  match props with
  | [] => None
  | (n, v) :: rest => if String.eqb n name then Some v else prop name rest
  end.

Definition field (name : string) (v : PropVal) : option PropVal :=
  match v with
  | VObj fs => prop name fs
  | _ => None
  end.

Definition props_of (e : Element) : list (string * PropVal) :=
  match e with
  | El _ props _ => props
  | TextNode _ => []
  end.

(** The first element of type [t] among a tree's nodes, depth first. *)
Fixpoint find (t : string) (e : Element) : option Element :=
  match e with
  | TextNode _ => None
  | El tag props kids =>
      if String.eqb tag t then Some e
      else
        (fix go (ks : list Element) :=
           match ks with
           | [] => None
           | k :: rest =>
               match find t k with
               | Some found => Some found
               | None => go rest
               end
           end) kids
  end.

Definition as_bool (v : PropVal) : option bool :=
  match v with
  | VBool b => Some b
  | _ => None
  end.

Definition opt_str (s : option jsstring) : PropVal :=
  match s with
  | Some s => VStr s
  | None => VUndefined
  end.

Definition opt_bool (b : option bool) : PropVal :=
  match b with
  | Some b => VBool b
  | None => VUndefined
  end.

Definition children_of (e : Element) : list Element :=
  match e with
  | El _ _ kids => kids
  | TextNode _ => []
  end.

Definition tag_of (e : Element) : option string :=
  match e with
  | El tag _ _ => Some tag
  | TextNode _ => None
  end.

End React.
Import React.

(** ** react-hot-toast *)

Module Toast.

(** [ValueOrFunction<Renderable, Arg>]: a message, or a function of the
    promise's result that computes one. *)
Inductive ValueOrFunction (Arg : Type) :=
| Value (s : jsstring)
| Function (f : Arg -> jsstring).
Arguments Value {Arg}.
Arguments Function {Arg}.

Definition resolveValue {Arg} (v : ValueOrFunction Arg) (a : Arg)
  : jsstring :=
  match v with
  | Value s => s
  | Function f => f a
  end.

(** What the toaster shows, in the order it is shown; the last argument
    is the options object. *)
Inductive ToastEvent :=
| ToastLoading (msg : jsstring) (opts : PropVal)
| ToastSuccess (msg : jsstring) (opts : PropVal)
| ToastError (msg : jsstring) (opts : PropVal).

End Toast.
Import Toast.

(** ** Imported helpers

    The exports of other modules, typed as the components use them. *)

Class Imports := {
  (** the type of [currentProject.region] *)
  Region : Type;
  (** '@/features/projects/common/utils/generateAppServiceUrl' *)
  generateAppServiceUrl :
    option jsstring -> option Region -> string ->
    option (gmap string jsstring) -> option (gmap string jsstring) ->
    jsstring;
  defaultLocalBackendSlugs : gmap string jsstring;
  defaultRemoteBackendSlugs : gmap string jsstring;
  (** '@/utils/env' *)
  getHasuraConsoleServiceUrl : jsstring;
  (** 'tailwind-merge'; a falsy argument is [None] *)
  twMerge : list (option jsstring) -> jsstring;
  (** '@/utils/settings/getServerError' *)
  getServerError : jsstring -> ValueOrFunction Thrown;
  (** '@/utils/settings/settingsConstants' *)
  getToastStyleProps : PropVal;
  (** JavaScript numbers, with [Math.round], [Number.prototype.toString]
      and 'prettysize' *)
  number : Type;
  zero : number;
  number_truthy : number -> bool;
  Math_round : number -> number;
  toString : number -> jsstring;
  prettysize : number -> jsstring;
}.

(** ** Hooks and the render monad *)

Module Hooks.
Section Hooks.
Context `{Imports}.

Record HasuraConfig := { adminSecret : option jsstring }.
Record ProjectConfig := { hasura : HasuraConfig }.
Record Plan := { isFree : bool }.

(** The fields of [currentProject] the components read. *)
Record Project := {
  id : jsstring;
  subdomain : option jsstring;
  region : Region;
  config : option ProjectConfig;
  plan : Plan;
}.

(** One call of [generateAppServiceUrl], with its arguments as passed. *)
Record Call := {
  call_subdomain : option jsstring;
  call_region : option Region;
  call_service : string;
  call_localBackendSlugs : option (gmap string jsstring);
  call_remoteBackendSlugs : option (gmap string jsstring);
}.

(** A render returns a value or throws, and leaves the list of the
    [generateAppServiceUrl] calls it made. *)
Definition Render (A : Type) : Type := list Call * (Thrown + A).

Definition ret {A} (a : A) : Render A := ([], inr a).

Definition throw {A} (t : Thrown) : Render A := ([], inl t).

Definition bind {A B} (m : Render A) (f : A -> Render B) : Render B :=
  match m with
  | (log, inl t) => (log, inl t)
  | (log, inr a) => let '(log', r) := f a in (log ++ log', r)
  end.

Definition calls {A} (m : Render A) : list Call := m.1.

Definition outcome {A} (m : Render A) : Thrown + A := m.2.

(** What a render puts on the screen: the painted tree, or the error
    for the error boundary. *)
Definition screen (m : Render Element) : Thrown + Element :=
  match outcome m with
  | inl t => inl t
  | inr tree => inr (painted tree)
  end.

(** [o.name] where [o] may be [undefined]. *)
Definition member {A} (o : option A) (access : string) : Render A :=
  match o with
  | Some a => ret a
  | None => throw (ThrownTypeError access)
  end.

Definition call_generateAppServiceUrl
    (subdomain : option jsstring) (region : option Region)
    (service : string)
    (localBackendSlugs remoteBackendSlugs : option (gmap string jsstring))
  : Render jsstring :=
  ([ {| call_subdomain := subdomain; call_region := region;
        call_service := service;
        call_localBackendSlugs := localBackendSlugs;
        call_remoteBackendSlugs := remoteBackendSlugs |} ],
   inr (generateAppServiceUrl subdomain region service
          localBackendSlugs remoteBackendSlugs)).

End Hooks.
End Hooks.
Import Hooks.

Declare Scope render_scope.
Delimit Scope render_scope with render.
Notation "'let*' x ':=' m 'in' k" := (bind m (fun x => k))
  (at level 10, x name, m at level 100, k at level 200) : render_scope.
Open Scope render_scope.

(** ** pages/[workspaceSlug]/[appSlug]/settings/custom-domains/index.tsx *)

Module CustomDomainsPage.
Section CustomDomainsPage.
Context `{Imports}.

Definition CustomDomains (currentProject : option Project)
  : Render Element :=
  let* currentProject := member currentProject "currentProject.plan" in
  if isFree (plan currentProject) then
    ret
      (El "Container"
         [("className", str "grid grid-flow-row gap-6 bg-transparent");
          ("rootClassName", str "bg-transparent")]
         [El "UpgradeToProBanner"
            [("title",
              str "Upgrade to Nhost Pro to unlock custom domains");
             ("description",
              str "In publishing and graphic design, Lorem ipsum is a placeholder text commonly used to demonstrate the visual form of a document or a typeface without relying on meaningful content.")]
            []])
  else
    ret
      (El "Container"
         [("className",
           str "grid max-w-5xl grid-flow-row gap-6 bg-transparent");
          ("rootClassName", str "bg-transparent")]
         [El "Box"
            [("className",
              str "flex flex-row items-center gap-4 overflow-hidden rounded-lg border-1 p-4")]
            [El "div" [("className", str "flex flex-col space-y-2")]
               [El "Text" [("className", str "text-lg font-semibold")]
                  [TextNode (lit "Custom Domains")];
                El "Text" [("color", str "secondary")]
                  [TextNode
                     (lit "Add a custom domain to Auth, Hasura, PostgreSQL, and your Run services for only a $10 flat fee "
                        ++ rocket ++ lit " ");
                   El "br" [] [];
                   TextNode (lit " Learn more about");
                   El "Link"
                     [("href",
                       str "https://docs.nhost.io/platform/custom-domains");
                      ("target", str "_blank");
                      ("rel", str "noopener noreferrer");
                      ("underline", str "hover");
                      ("className", str "ml-1 font-medium")]
                     [TextNode (lit "Custom Domains");
                      El "ArrowSquareOutIcon"
                        [("className", str "ml-1 h-4 w-4")] []]]]];
          El "AuthDomain" [] [];
          El "HasuraDomain" [] [];
          El "DatabaseDomain" [] [];
          El "RunServiceDomains" [] []]).

Definition getLayout (page : Element) : Element :=
  El "SettingsLayout" [] [page].

(** The four feature panels of the page. *)
Definition panels : list string :=
  ["AuthDomain"; "HasuraDomain"; "DatabaseDomain"; "RunServiceDomains"].

End CustomDomainsPage.
End CustomDomainsPage.
Import CustomDomainsPage.

(** ** components/overview/OverviewMetrics/OverviewMetrics.tsx *)

Module OverviewMetricsComponent.
Section OverviewMetricsComponent.
Context `{Imports}.

Record Metric := { value : option number }.

(** The data of [useGetProjectMetricsQuery]. *)
Record ProjectMetrics := {
  cpuSecondsUsage : option Metric;
  totalRequests : option Metric;
  functionInvocations : option Metric;
  postgresVolumeUsage : option Metric;
  postgresVolumeCapacity : option Metric;
  logsVolume : option Metric;
}.

(** [new Date(year, month, day)] *)
Record Date := { getFullYear : Z; getMonth : Z; getDate : Z }.

Record MetricsQueryVariables := {
  appId : option jsstring;
  from : Date;
}.

(** The variables [OverviewMetrics] hands to the query hook; [now] is the
    module-level [new Date()]. *)
Definition metricsQueryVariables (now : Date)
    (currentProject : option Project) : MetricsQueryVariables :=
  {| appId := id <$> currentProject;
     from := {| getFullYear := getFullYear now;
                getMonth := getMonth now;
                getDate := 1 |} |}.

(** [v || 0] on [number | undefined]. *)
Definition num_or_zero (v : option number) : number :=
  match v with
  | Some n => if number_truthy n then n else zero
  | None => zero
  end.

Definition MetricsCard (label value className : option jsstring)
  : Element :=
  El "Box"
     [("className",
       VStr (twMerge
               [Some (lit "grid grid-flow-row gap-2 rounded-md px-4 py-3");
                className]));
      ("sx", VObj [("backgroundColor", str "grey.200")])]
     (when_truthy label
        (fun label =>
           El "Text"
              [("className", str "font-medium"); ("color", str "secondary")]
              [TextNode label])
      ++ when_truthy value
        (fun value =>
           El "Text"
              [("variant", str "h2"); ("component", str "p");
               ("className", str "truncate")]
              [TextNode value])).

Definition cardElements (data : option ProjectMetrics)
  : list (jsstring * jsstring) :=
  [ (lit "CPU Usage Seconds",
     toString (Math_round
                 (num_or_zero (data ?. cpuSecondsUsage ?. value))));
    (lit "Total Requests",
     toString (Math_round
                 (num_or_zero (data ?. totalRequests ?. value))));
    (lit "Function Invocations",
     toString (Math_round
                 (num_or_zero (data ?. functionInvocations ?. value))));
    (lit "Postgres Usage",
     prettysize (num_or_zero (data ?. postgresVolumeUsage ?. value)));
    (lit "Postgres Capacity",
     prettysize (num_or_zero (data ?. postgresVolumeCapacity ?. value)));
    (lit "Logs",
     prettysize (num_or_zero (data ?. logsVolume ?. value))) ].

(** The card of the loading state; React keeps [key] to itself, it is
    not among the props. *)
Definition placeholderCard : Element :=
  MetricsCard None None (Some (lit "h-[92px] animate-pulse")).

Definition OverviewMetrics (currentProject : option Project)
    (query : QueryResult ProjectMetrics) : Render Element :=
  let cardElements := cardElements (data query) in
  if negb (bool_decide (is_Some (data query))) && loading query then
    ret
      (El "div" [("className", str "grid grid-flow-row gap-4")]
         [El "div"
            [("className",
              str "grid grid-cols-1 gap-4 xs:grid-cols-2 md:grid-cols-3")]
            ((fun element => placeholderCard) <$> cardElements);
          El "Text" [("color", str "disabled")]
            [TextNode
               (lit "Your project usage since the beginning of the month.")]])
  else
    match data query, error query with
    | None, Some error => throw (ThrownApolloError error)
    | _, _ =>
        ret
          (El "div" [("className", str "grid grid-flow-row gap-4")]
             [El "div"
                [("className",
                  str "grid grid-cols-1 justify-start gap-4 xs:grid-cols-2 md:grid-cols-3")]
                ((fun element : jsstring * jsstring =>
                    MetricsCard (Some element.1) (Some element.2) None)
                   <$> cardElements);
              El "Text" [("color", str "disabled")]
                [TextNode
                   (lit "Your resource usage since the beginning of the month.")]])
    end.

End OverviewMetricsComponent.
End OverviewMetricsComponent.
Import OverviewMetricsComponent.

(** ** features/hasura/overview/components/HasuraConnectionInfo *)

Module HasuraConnectionInfoComponent.
Section HasuraConnectionInfoComponent.
Context `{Imports}.

(** [close] is the optional callback prop; [NEXT_PUBLIC_ENV] is
    [process.env.NEXT_PUBLIC_ENV]; [isPlatform] is what [useIsPlatform]
    returns. *)
Definition HasuraConnectionInfo (close : option Action)
    (NEXT_PUBLIC_ENV : option jsstring) (isPlatform : bool)
    (currentProject : option Project) : Render Element :=
  let projectAdminSecret :=
    currentProject ?. config ?. (fun c => adminSecret (hasura c)) in
  if negb (truthy (currentProject ?. subdomain))
     || negb (truthy projectAdminSecret)
  then ret (El "LoadingScreen" [] [])
  else
    let* hasuraUrl :=
      if bool_decide (NEXT_PUBLIC_ENV = Some (lit "dev")) || negb isPlatform
      then ret getHasuraConsoleServiceUrl
      else
        call_generateAppServiceUrl
          (currentProject ?. subdomain)
          (region <$> currentProject)
          "hasura"
          (Some defaultLocalBackendSlugs)
          (Some (<["hasura" := lit "/console"]> defaultRemoteBackendSlugs))
    in
    let* secret := member projectAdminSecret "projectAdminSecret.length" in
    ret
      (El "div"
         [("className", str "mx-auto w-full max-w-md px-6 py-4 text-left")]
         [El "div" [("className", str "grid grid-flow-row gap-1")]
            [El "div" [("className", str "mx-auto")]
               [El "Image"
                  [("src", str "/assets/hasuramodal.svg");
                   ("width", VNum 72); ("height", VNum 72);
                   ("alt", str "Hasura")] []];
             El "Text"
               [("variant", str "h3"); ("component", str "h1");
                ("className", str "text-center")]
               [TextNode (lit "Open Hasura")];
             El "Text" [("className", str "text-center")]
               [TextNode
                  (lit "Hasura is the dashboard you'll use to edit your schema and permissions as well as browse data. Copy the admin secret to your clipboard and enter it in the next screen.")];
             El "Box" [("className", str "mt-6 border-y-1")]
               [El "div"
                  [("className",
                    str "grid w-full grid-cols-1 place-content-between items-center py-2 sm:grid-cols-3")]
                  [El "Text"
                     [("className",
                       str "col-span-1 text-center font-medium sm:justify-start sm:text-left")]
                     [TextNode (lit "Admin Secret")];
                   El "div"
                     [("className",
                       str "col-span-1 grid grid-flow-col items-center justify-center gap-2 sm:col-span-2 sm:justify-end")]
                     [El "Text"
                        [("className", str "font-medium");
                         ("variant", str "subtitle2")]
                        [TextNode
                           (join [] (fill bullet (Array (length secret))))];
                      El "IconButton"
                        [("onClick",
                          VHandler
                            (ACopy secret (lit "Hasura admin secret")));
                         ("variant", str "borderless");
                         ("color", str "secondary");
                         ("className", str "min-w-0 p-1");
                         ("aria-label", str "Copy admin secret")]
                        [El "CopyIcon" [("className", str "h-4 w-4")] []]]]];
             El "div" [("className", str "mt-6 grid grid-flow-row gap-2")]
               (El "Button"
                  [("href", VStr hasuraUrl);
                   ("target", str "_blank");
                   ("rel", str "noreferrer noopener");
                   ("endIcon",
                    VElem (El "ArrowSquareOutIcon"
                             [("className", str "h-4 w-4")] []))]
                  [TextNode (lit "Open Hasura")]
                :: match close with
                   | Some close =>
                       [El "Button"
                          [("variant", str "outlined");
                           ("color", str "secondary");
                           ("className", str "text-sm+ font-normal");
                           ("onClick", VHandler close)]
                          [TextNode (lit "Cancel")]]
                   | None => []
                   end)]]).

(** The project [p] with [s] as its Hasura admin secret. *)
Definition with_adminSecret (p : Project) (s : jsstring) : Project :=
  {| id := id p; subdomain := subdomain p; region := region p;
     config := Some {| hasura := {| adminSecret := Some s |} |};
     plan := plan p |}.

End HasuraConnectionInfoComponent.
End HasuraConnectionInfoComponent.
Import HasuraConnectionInfoComponent.

(** ** The generated GraphQL documents the Azure AD form uses *)

Module SignInMethods.

(** [data.config.auth.method.oauth.azuread] of [GetSignInMethods];
    every level may be missing. *)
Record AzureAD := {
  clientId : option jsstring;
  clientSecret : option jsstring;
  tenant : option jsstring;
  enabled : option bool;
}.
Record OAuth := { azuread : option AzureAD }.
Record Method := { oauth : option OAuth }.
Record Auth := { method : option Method }.
Record Config := { auth : option Auth }.
Record Data := { config : option Config }.

Record QueryOptions := {
  variables_appId : option jsstring;
  fetchPolicy : FetchPolicy;
}.

End SignInMethods.

(** ** yup: the part of the schema language the form uses *)

Module Yup.

(** The one failure these schemas can report: [required] on [path]. *)
Inductive ValidationError :=
| RequiredError (path : string) (label : jsstring).

Definition path_of (e : ValidationError) : string :=
  match e with RequiredError p _ => p end.

(** Default locale: "${path} is a required field", the label standing
    for the path. *)
Definition message_of (e : ValidationError) : jsstring :=
  match e with RequiredError _ l => l ++ lit " is a required field" end.

Record StringSchema := {
  schema_label : option jsstring;
  schema_required : bool;
}.

(** [Yup.string()] *)
Definition string_ : StringSchema :=
  {| schema_label := None; schema_required := false |}.

(** [schema.label(l)] *)
Definition label (l : jsstring) (s : StringSchema) : StringSchema :=
  {| schema_label := Some l; schema_required := schema_required s |}.

(** [schema.required()] *)
Definition required (s : StringSchema) : StringSchema :=
  {| schema_label := schema_label s; schema_required := true |}.

(** [schema.when(key, { is, then })]: the schema is resolved against the
    parent object; [is_] is compared with [===]. *)
Definition when {V : Type} (key : V -> option bool) (is_ : bool)
    (then_ : StringSchema -> StringSchema) (s : StringSchema)
  : V -> StringSchema :=
  fun parent => if bool_decide (key parent = Some is_) then then_ s else s.

(** Validation of one string field; a required string must be present
    and of non-zero length. *)
Definition validate_string (path : string) (s : StringSchema)
    (v : option jsstring) : list ValidationError :=
  if schema_required s && negb (truthy v)
  then [RequiredError path (default (lit path) (schema_label s))]
  else [].

(** [Yup.boolean()] accepts [true], [false] and [undefined]. *)
Definition validate_boolean (path : string) (v : option bool)
  : list ValidationError := [].

End Yup.

(** ** features/authentication/settings/.../AzureADProviderSettings *)

Module AzureAD.

(** [AzureADProviderFormValues = Yup.InferType<typeof validationSchema>]:
    every field is optional. *)
Record AzureADProviderFormValues := {
  clientId : option jsstring;
  clientSecret : option jsstring;
  tenant : option jsstring;
  enabled : option bool;
}.

#[global] Instance AzureADProviderFormValues_eq_dec :
  EqDecision AzureADProviderFormValues.
Proof. solve_decision. Defined.

Definition clientId_schema : AzureADProviderFormValues -> Yup.StringSchema :=
  Yup.when enabled true (fun schema => Yup.required schema)
    (Yup.label (lit "Client ID") Yup.string_).

Definition clientSecret_schema
  : AzureADProviderFormValues -> Yup.StringSchema :=
  Yup.when enabled true (fun schema => Yup.required schema)
    (Yup.label (lit "Client Secret") Yup.string_).

Definition tenant_schema : AzureADProviderFormValues -> Yup.StringSchema :=
  Yup.when enabled true (fun schema => Yup.required schema)
    (Yup.label (lit "Tenant") Yup.string_).

(** [validationSchema], as the resolver runs it: the errors of a value
    assignment, none when it passes. *)
Definition validationSchema (values : AzureADProviderFormValues)
  : list Yup.ValidationError :=
  Yup.validate_string "clientId" (clientId_schema values) (clientId values)
  ++ Yup.validate_string "clientSecret" (clientSecret_schema values)
       (clientSecret values)
  ++ Yup.validate_string "tenant" (tenant_schema values) (tenant values)
  ++ Yup.validate_boolean "enabled" (enabled values).

Definition passes (values : AzureADProviderFormValues) : bool :=
  match validationSchema values with
  | [] => true
  | _ :: _ => false
  end.

(** *** react-hook-form *)

Inductive ValidationMode := OnSubmit | OnBlur | OnChange.

Record UseFormProps := {
  reValidateMode : ValidationMode;
  defaultValues : AzureADProviderFormValues;
  resolver : AzureADProviderFormValues -> list Yup.ValidationError;
}.

(** The state behind the object [useForm] returns. *)
Record UseFormReturn := {
  form_defaultValues : AzureADProviderFormValues;
  form_values : AzureADProviderFormValues;
  form_errors : list Yup.ValidationError;
  form_isSubmitting : bool;
}.

(** [formState.isDirty]: the current values differ from the defaults. *)
Definition isDirty (form : UseFormReturn) : bool :=
  negb (bool_decide (form_values form = form_defaultValues form)).

(** [useForm(props)]: the first render creates the form from the default
    values, later renders get the form that exists. *)
Definition useForm (props : UseFormProps) (mounted : option UseFormReturn)
  : UseFormReturn :=
  match mounted with
  | Some form => form
  | None =>
      {| form_defaultValues := defaultValues props;
         form_values := defaultValues props;
         form_errors := [];
         form_isSubmitting := false |}
  end.

(** [form.reset(values)]: [values] become the defaults and the current
    values; errors are cleared. *)
Definition reset (values : AzureADProviderFormValues)
    (form : UseFormReturn) : UseFormReturn :=
  {| form_defaultValues := values;
     form_values := values;
     form_errors := [];
     form_isSubmitting := false |}.

(** [watch('enabled')] *)
Definition watch_enabled (form : UseFormReturn) : option bool :=
  enabled (form_values form).

(** [formState.errors?.[path]] *)
Definition error_at (path : string) (form : UseFormReturn)
  : option Yup.ValidationError :=
  head (filter (fun e => Yup.path_of e = path) (form_errors form)).

(** *** The GraphQL side *)

(** The [config] input of [updateConfig]: the submitted values under
    [auth.method.oauth.azuread]. *)
Record OAuthInput := { azuread : AzureADProviderFormValues }.
Record MethodInput := { oauth : OAuthInput }.
Record AuthInput := { method : MethodInput }.
Record ConfigInput := { auth : AuthInput }.
Record UpdateConfigVariables := {
  appId : jsstring;
  config : ConfigInput;
}.

(** *** The submit handler's world: the form, the toaster, and the
    mutations sent so far *)

Record World := {
  world_form : UseFormReturn;
  world_toasts : list ToastEvent;
  world_mutations : list UpdateConfigVariables;
}.

(** An [async] function: it changes the world and its promise settles. *)
Definition Async (A : Type) : Type := World -> World * Settled A.

Definition resolve {A} (a : A) : Async A := fun w => (w, Fulfilled a).

Definition then_ {A B} (m : Async A) (f : A -> Async B) : Async B :=
  fun w =>
    match m w with
    | (w', Fulfilled a) => f a w'
    | (w', Rejected reason) => (w', Rejected reason)
    end.

(** [await promise] *)
Definition await {A} (promise : Settled A) : Async A :=
  fun w => (w, promise).

(** [try { body } catch { handler }] *)
Definition try_catch {A} (body : Async A) (handler : Thrown -> Async A)
  : Async A :=
  fun w =>
    match body w with
    | (w', Fulfilled a) => (w', Fulfilled a)
    | (w', Rejected reason) => handler reason w'
    end.

(** [o.name] where [o] may be [undefined], inside an [async] function. *)
Definition member_async {A} (o : option A) (access : string) : Async A :=
  match o with
  | Some a => resolve a
  | None => fun w => (w, Rejected (ThrownTypeError access))
  end.

(** [updateConfig({ variables })]: the mutation is sent and a promise
    comes back at once; [respond] is the answer of the GraphQL service. *)
Definition updateConfig (respond : UpdateConfigVariables -> Settled unit)
    (variables : UpdateConfigVariables) : Async (Settled unit) :=
  fun w =>
    ({| world_form := world_form w;
        world_toasts := world_toasts w;
        world_mutations := world_mutations w ++ [variables] |},
     Fulfilled (respond variables)).

(** [toast.promise(promise, { loading, success, error }, opts)]: the
    loading toast is shown at once, the success or the error toast when
    the promise settles; the promise itself is returned. *)
Definition toast_promise {A} (promise : Settled A) (loading : jsstring)
    (success : ValueOrFunction A) (error : ValueOrFunction Thrown)
    (opts : PropVal) : Async (Settled A) :=
  fun w =>
    ({| world_form := world_form w;
        world_toasts :=
          world_toasts w
          ++ [ToastLoading loading opts;
              match promise with
              | Fulfilled a => ToastSuccess (resolveValue success a) opts
              | Rejected reason =>
                  ToastError (resolveValue error reason) opts
              end];
        world_mutations := world_mutations w |},
     Fulfilled promise).

(** [form.reset(values)] on the form of the world. *)
Definition form_reset (values : AzureADProviderFormValues) : Async unit :=
  fun w =>
    ({| world_form := reset values (world_form w);
        world_toasts := world_toasts w;
        world_mutations := world_mutations w |},
     Fulfilled tt).

End AzureAD.
Import AzureAD.

Declare Scope async_scope.
Delimit Scope async_scope with async.
Notation "'let*' x ':=' m 'in' k" := (then_ m (fun x => k))
  (at level 10, x name, m at level 100, k at level 200) : async_scope.

Module AzureADComponent.
Section AzureADComponent.
Context `{Imports}.

(** The options of [useGetSignInMethodsQuery]. *)
Definition signInMethodsQueryOptions (currentProject : option Project)
  : SignInMethods.QueryOptions :=
  {| SignInMethods.variables_appId := id <$> currentProject;
     SignInMethods.fetchPolicy := CacheOnly |}.

(** The options of [useForm], from the data of the query. *)
Definition useFormProps (data : option SignInMethods.Data) : UseFormProps :=
  let azuread :=
    data ?. SignInMethods.config ?. SignInMethods.auth
         ?. SignInMethods.method ?. SignInMethods.oauth
         ?. SignInMethods.azuread in
  let clientId := azuread ?. SignInMethods.clientId in
  let clientSecret := azuread ?. SignInMethods.clientSecret in
  let tenant := azuread ?. SignInMethods.tenant in
  let enabled := azuread ?. SignInMethods.enabled in
  {| reValidateMode := OnSubmit;
     defaultValues :=
       {| clientId := Some (str_or clientId (lit ""));
          clientSecret := Some (str_or clientSecret (lit ""));
          tenant := Some (str_or tenant (lit ""));
          enabled := Some (bool_or enabled false) |};
     resolver := validationSchema |}.

Definition values_obj (values : AzureADProviderFormValues) : PropVal :=
  VObj [("clientId", opt_str (clientId values));
        ("clientSecret", opt_str (clientSecret values));
        ("tenant", opt_str (tenant values));
        ("enabled", opt_bool (enabled values))].

(** [mounted] is the form of the previous render, if there was one.  The
    spread [{...form}] is written as the two props that carry the form's
    state; the spread [{...register('tenant')}] as its two handlers, its
    [name] being given again by the component. *)
Definition AzureADProviderSettings (maintenanceActive : bool)
    (currentProject : option Project)
    (query : QueryResult SignInMethods.Data)
    (mounted : option UseFormReturn) : Render Element :=
  let form := useForm (useFormProps (data query)) mounted in
  if loading query then
    ret
      (El "ActivityIndicator"
         [("delay", VNum 1000);
          ("label", str "Loading settings for Azure AD...");
          ("className", str "justify-center")] [])
  else
    match error query with
    | Some error => throw (ThrownApolloError error)
    | None =>
        let authEnabled := watch_enabled form in
        let* currentProject :=
          member currentProject "currentProject.subdomain" in
        let* redirectBase :=
          call_generateAppServiceUrl (subdomain currentProject)
            (Some (region currentProject)) "auth" None None in
        let redirectUrl :=
          redirectBase ++ lit "/signin/provider/azuread/callback" in
        ret
          (El "FormProvider"
             [("defaultValues", values_obj (form_defaultValues form));
              ("values", values_obj (form_values form))]
             [El "Form"
                [("onSubmit", VHandler (ACallback "handleProviderUpdate"))]
                [El "SettingsContainer"
                   [("title", str "Azure AD");
                    ("description",
                     str "Allow users to sign in with Azure AD.");
                    ("slotProps",
                     VObj
                       [("submitButton",
                         VObj
                           [("disabled",
                             VBool (negb (isDirty form)
                                    || maintenanceActive));
                            ("loading",
                             VBool (form_isSubmitting form))])]);
                    ("icon", str "/assets/brands/azuread.svg");
                    ("switchId", str "enabled");
                    ("showSwitch", VBool true);
                    ("className",
                     VStr
                       (twMerge
                          [Some
                             (lit "grid grid-flow-row grid-cols-2 gap-y-4 gap-x-3 px-4 py-2");
                           if bool_or authEnabled false then None
                           else Some (lit "hidden")]))]
                   [El "BaseProviderSettings"
                      [("providerName", str "azuread")] [];
                    El "Input"
                      [("onChange",
                        VHandler (ACallback "register('tenant').onChange"));
                       ("onBlur",
                        VHandler (ACallback "register('tenant').onBlur"));
                       ("name", str "tenant");
                       ("id", str "tenant");
                       ("label", str "Tenant ID");
                       ("placeholder", str "Tenant ID");
                       ("className", str "col-span-2");
                       ("fullWidth", VBool true);
                       ("hideEmptyHelperText", VBool true);
                       ("error",
                        VBool
                          (bool_decide (is_Some (error_at "tenant" form))));
                       ("helperText",
                        opt_str
                          (Yup.message_of <$> error_at "tenant" form))]
                      [];
                    El "Input"
                      [("name", str "redirectUrl");
                       ("id", str "redirectUrl");
                       ("defaultValue", VStr redirectUrl);
                       ("className", str "col-span-2");
                       ("fullWidth", VBool true);
                       ("hideEmptyHelperText", VBool true);
                       ("label", str "Redirect URL");
                       ("disabled", VBool true);
                       ("endAdornment",
                        VElem
                          (El "InputAdornment"
                             [("position", str "end");
                              ("className", str "absolute right-2")]
                             [El "IconButton"
                                [("sx",
                                  VObj [("minWidth", VNum 0);
                                        ("padding", VNum 0)]);
                                 ("color", str "secondary");
                                 ("variant", str "borderless");
                                 ("onClick",
                                  VHandler
                                    (AStopPropagationThen
                                       (ACopy redirectUrl
                                          (lit "Redirect URL"))))]
                                [El "CopyIcon"
                                   [("className", str "h-4 w-4")] []]]))]
                      []]]])
    end.

(** The [disabled] flag the form hands to its submit button. *)
Definition submitButtonDisabled (tree : Element) : option bool :=
  find "SettingsContainer" tree
    ?. (fun container => prop "slotProps" (props_of container))
    ?. field "submitButton" ?. field "disabled" ?. as_bool.

(** [handleProviderUpdate(values)], with the project and the mutation of
    the render that created it; [respond] is the answer of the GraphQL
    service to the mutation. *)
Definition handleProviderUpdate
    (respond : UpdateConfigVariables -> Settled unit)
    (currentProject : option Project)
    (values : AzureADProviderFormValues) : Async unit :=
  (let* currentProject := member_async currentProject "currentProject.id" in
   let* updateConfigPromise :=
     updateConfig respond
       {| appId := id currentProject;
          config :=
            {| auth :=
                 {| method := {| oauth := {| azuread := values |} |} |} |}
       |} in
   try_catch
     (let* toasted :=
        toast_promise updateConfigPromise
          (lit "Azure AD settings are being updated...")
          (Value (lit "Azure AD settings have been updated successfully."))
          (getServerError
             (lit "An error occurred while trying to update the project's Azure AD settings."))
          getToastStyleProps in
      let* _ := await toasted in
      form_reset values)
     (fun _ => resolve tt))%async.

End AzureADComponent.
End AzureADComponent.
Import AzureADComponent.

(** ** One implementation of the imports, to run the components *)

Module Sample.

Definition imports : Imports :=
  {| Region := jsstring;
     generateAppServiceUrl :=
       fun subdomain region service _ remoteBackendSlugs =>
         lit "https://" ++ default [] subdomain ++ lit "."
         ++ lit service ++ lit "." ++ default [] region
         ++ lit ".nhost.run"
         ++ default [] (remoteBackendSlugs ?. (fun m => m !! service));
     defaultLocalBackendSlugs := {[ "hasura" := lit "" ]};
     defaultRemoteBackendSlugs := {[ "hasura" := lit "/v1" ]};
     getHasuraConsoleServiceUrl := lit "http://localhost:9695";
     twMerge := fun classes => join (lit " ") (filter is_Some classes);
     getServerError := fun fallbackMessage => Value fallbackMessage;
     getToastStyleProps := VObj [];
     number := Z;
     zero := 0%Z;
     number_truthy := fun n => negb (n =? 0)%Z;
     Math_round := fun n => n;
     toString := fun n => lit (pretty n);
     prettysize := fun n => lit (pretty n) ++ lit " Bytes" |}.

#[local] Existing Instance imports.

Definition project : Project :=
  {| id := lit "app-1";
     subdomain := Some (lit "abcdefgh");
     region := lit "eu-central-1";
     Hooks.config :=
       Some {| hasura := {| adminSecret := Some (lit "s3cret") |} |};
     plan := {| isFree := false |} |}.

Definition queryError : ApolloError :=
  {| message := lit "Network error" |}.

Definition untouched : AzureADProviderFormValues :=
  {| clientId := Some (lit ""); clientSecret := Some (lit "");
     tenant := Some (lit ""); enabled := Some false |}.

Definition switchedOn : AzureADProviderFormValues :=
  {| clientId := Some (lit ""); clientSecret := Some (lit "");
     tenant := Some (lit ""); enabled := Some true |}.

Definition filledIn : AzureADProviderFormValues :=
  {| clientId := Some (lit "client"); clientSecret := Some (lit "secret");
     tenant := Some (lit "tenant"); enabled := Some true |}.

(** A form whose switch was turned on and whose fields are still empty:
    dirty, and rejected by the schema. *)
Definition dirtyForm : UseFormReturn :=
  {| form_defaultValues := untouched;
     form_values := switchedOn;
     form_errors := [];
     form_isSubmitting := false |}.

Definition editedForm : UseFormReturn :=
  {| form_defaultValues := untouched;
     form_values := filledIn;
     form_errors := [];
     form_isSubmitting := false |}.

Definition world : World :=
  {| world_form := editedForm; world_toasts := []; world_mutations := [] |}.

Definition metrics : ProjectMetrics :=
  {| cpuSecondsUsage := Some {| value := Some 12%Z |};
     totalRequests := Some {| value := Some 340%Z |};
     functionInvocations := None;
     postgresVolumeUsage := Some {| value := Some 1024%Z |};
     postgresVolumeCapacity := Some {| value := Some 4096%Z |};
     logsVolume := None |}.

(** The metrics query with data from an earlier fetch and the error of
    a later one. *)
Definition staleMetricsQuery : QueryResult ProjectMetrics :=
  {| data := Some metrics; loading := false; error := Some queryError |}.

(** The sign-in-methods query in flight, with the error of the fetch
    before. *)
Definition refetchingSignInQuery : QueryResult SignInMethods.Data :=
  {| data := None; loading := true; error := Some queryError |}.

(** The sign-in-methods query answered from the cache, nothing
    configured yet. *)
Definition loadedSignInQuery : QueryResult SignInMethods.Data :=
  {| data := Some {| SignInMethods.config := None |};
     loading := false; error := None |}.

(** The cached answer of a project whose Azure AD provider is set up. *)
Definition configuredData : SignInMethods.Data :=
  {| SignInMethods.config :=
       Some
         {| SignInMethods.auth :=
              Some
                {| SignInMethods.method :=
                     Some
                       {| SignInMethods.oauth :=
                            Some
                              {| SignInMethods.azuread :=
                                   Some
                                     {| SignInMethods.clientId :=
                                          Some (lit "client");
                                        SignInMethods.clientSecret :=
                                          Some (lit "secret");
                                        SignInMethods.tenant :=
                                          Some (lit "tenant");
                                        SignInMethods.enabled := Some true
                                     |} |} |} |} |} |}.

(** Both queries settled with an error and without data. *)
Definition failedMetricsQuery : QueryResult ProjectMetrics :=
  {| data := None; loading := false; error := Some queryError |}.

Definition failedSignInQuery : QueryResult SignInMethods.Data :=
  {| data := None; loading := false; error := Some queryError |}.

End Sample.

(** ** The helper behind the error toast *)

Module FromSpec.

(** Modelled from the spec: [getServerError], the default export of
    '@/utils/settings/getServerError', whose source is not part of the
    files at hand.  The spec has mutation errors "surfaced via toast
    notifications with static user-facing copy": what the helper hands to
    the toaster is the copy it was given, whatever the error. *)
Definition getServerError (fallbackMessage : jsstring)
  : ValueOrFunction Thrown :=
  Value fallbackMessage.

(** The imports [I], with this [getServerError] for the one of [I]. *)
Definition imports (I : Imports) : Imports :=
  Build_Imports
    (@Region I)
    (@generateAppServiceUrl I)
    (@defaultLocalBackendSlugs I)
    (@defaultRemoteBackendSlugs I)
    (@getHasuraConsoleServiceUrl I)
    (@twMerge I)
    getServerError
    (@getToastStyleProps I)
    (@number I)
    (@zero I)
    (@number_truthy I)
    (@Math_round I)
    (@toString I)
    (@prettysize I).

End FromSpec.

(** ** Reading a rendered tree *)

Definition as_str (v : PropVal) : option jsstring :=
  match v with
  | VStr s => Some s
  | _ => None
  end.

(** The [href] of the first button of a tree. *)
Definition buttonHref (tree : Element) : option jsstring :=
  find "Button" tree ?. (fun button => prop "href" (props_of button))
    ?. as_str.

(** The [className] the settings container is given for its fields. *)
Definition fieldsClassName (tree : Element) : option jsstring :=
  find "SettingsContainer" tree
    ?. (fun container => prop "className" (props_of container)) ?. as_str.

(** The children of the settings container, by position. *)
Definition settingsChild (i : nat) (tree : Element) : option Element :=
  find "SettingsContainer" tree ?. (fun container => children_of container !! i).

(** ** More sample values *)

Module Sample2.

#[local] Existing Instance Sample.imports.

(** [Sample.metrics] with its missing metrics spelled out as zero and as
    a missing value. *)
Definition metricsSpelledOut : ProjectMetrics :=
  {| cpuSecondsUsage := Some {| value := Some 12%Z |};
     totalRequests := Some {| value := Some 340%Z |};
     functionInvocations := Some {| value := Some 0%Z |};
     postgresVolumeUsage := Some {| value := Some 1024%Z |};
     postgresVolumeCapacity := Some {| value := Some 4096%Z |};
     logsVolume := Some {| value := None |} |}.

(** A project on the free plan, in another region. *)
Definition freeProject : Project :=
  {| id := lit "app-2";
     subdomain := Some (lit "zyxwvuts");
     region := lit "us-east-1";
     Hooks.config := None;
     plan := {| isFree := true |} |}.

Definition anotherFreeProject : Project :=
  {| id := lit "app-3";
     subdomain := None;
     region := lit "eu-west-2";
     Hooks.config := None;
     plan := {| isFree := true |} |}.

(** A cached answer with a client id and the switch on, but neither
    secret nor tenant yet. *)
Definition partlyConfiguredData : SignInMethods.Data :=
  {| SignInMethods.config :=
       Some
         {| SignInMethods.auth :=
              Some
                {| SignInMethods.method :=
                     Some
                       {| SignInMethods.oauth :=
                            Some
                              {| SignInMethods.azuread :=
                                   Some
                                     {| SignInMethods.clientId :=
                                          Some (lit "client");
                                        SignInMethods.clientSecret := None;
                                        SignInMethods.tenant := None;
                                        SignInMethods.enabled := Some true
                                     |} |} |} |} |} |}.

End Sample2.

(** * Properties *)

(** ** JavaScript arrays and strings *)

Lemma join_cons_empty_sep (x : option jsstring) (rest : list (option jsstring)) :
  join [] (x :: rest) = default [] x ++ join [] rest.
Proof.
  destruct rest as [|y rest]; simpl.
  - by rewrite app_nil_r.
  - reflexivity.
Qed.

Lemma join_fill_Array (x : jsstring) (n : nat) :
  join [] (fill x (Array n)) = concat (replicate n x).
Proof.
  unfold fill, Array.
  induction n as [|n IH].
  - reflexivity.
  - change (replicate (S n) (@None jsstring))
      with (None :: replicate n (@None jsstring)).
    rewrite fmap_cons, join_cons_empty_sep, IH.
    reflexivity.
Qed.

(** [Array(n).fill('•').join('')] is [n] bullets. *)
Lemma masked_is_bullets (n : nat) :
  join [] (fill bullet (Array n)) = replicate n 0x2022%N.
Proof.
  rewrite join_fill_Array.
  induction n as [|n IH]; simpl; [reflexivity | by rewrite IH].
Qed.

Lemma truthy_Some_nonempty (s : jsstring) : truthy (Some s) = true <-> s <> [].
Proof. destruct s; simpl; split; intros; congruence. Qed.

Lemma str_or_Some_empty (s : jsstring) : str_or (Some s) (lit "") = s.
Proof. by destruct s. Qed.

Lemma bool_or_Some_false (b : bool) : bool_or (Some b) false = b.
Proof. by destruct b. Qed.

(** ** The render monad *)

Section RenderLaws.
Context `{Imports}.

Lemma bind_ret_l {A B} (a : A) (f : A -> Render B) : bind (ret a) f = f a.
Proof. unfold bind, ret. by destruct (f a). Qed.

End RenderLaws.

(** ** CustomDomains *)

(** C4: for every current project, [CustomDomains] gates on the plan.  On a
    free plan the page is a container whose only child is the
    [UpgradeToProBanner], and none of [AuthDomain], [HasuraDomain],
    [DatabaseDomain], [RunServiceDomains] occurs in it; on any other plan
    each of the four panels occurs exactly once and no banner occurs. *)
Theorem CustomDomains_gates_on_plan `{Imports} (currentProject : Project) :
  exists page,
    CustomDomains (Some currentProject) = ret page /\
    tag_of page = Some "Container" /\
    if isFree (plan currentProject) then
      tag_of <$> children_of page = [Some "UpgradeToProBanner"] /\
      occurrences "UpgradeToProBanner" page = 1 /\
      Forall (fun panel => occurrences panel page = 0) panels
    else
      occurrences "UpgradeToProBanner" page = 0 /\
      Forall (fun panel => occurrences panel page = 1) panels /\
      drop 1 (tag_of <$> children_of page) = Some <$> panels.
Proof.
  unfold CustomDomains, member.
  rewrite bind_ret_l.
  destruct (isFree (plan currentProject)); eexists; (split; [reflexivity|]).
  - split; [reflexivity|]. split; [reflexivity|]. split; [reflexivity|].
    unfold panels. repeat constructor.
  - split; [reflexivity|]. split; [reflexivity|]. split; [|reflexivity].
    unfold panels. repeat constructor.
Qed.

(** ** The validation schema *)

(** The schema on arbitrary values, [undefined] included. *)
Lemma passes_iff (values : AzureADProviderFormValues) :
  passes values = true
  <-> enabled values <> Some true
      \/ (truthy (clientId values) = true
          /\ truthy (clientSecret values) = true
          /\ truthy (tenant values) = true).
Proof.
  unfold passes, validationSchema, Yup.validate_boolean.
  rewrite app_nil_r.
  unfold clientId_schema, clientSecret_schema, tenant_schema, Yup.when.
  unfold Yup.validate_string.
  destruct (enabled values) as [[|]|]; simpl;
    destruct (truthy (clientId values)),
             (truthy (clientSecret values)),
             (truthy (tenant values)); simpl;
    split; intros; try reflexivity; try discriminate;
    try (left; congruence); try (right; tauto);
    intuition (congruence || discriminate).
Qed.

(** C5: a value assignment {clientId, clientSecret, tenant, enabled} passes
    the validation schema if and only if [enabled] is false, or [enabled]
    is true and [clientId], [clientSecret] and [tenant] are all
    non-empty. *)
Theorem validationSchema_required_fields
    (clientId_ clientSecret_ tenant_ : jsstring) (enabled_ : bool) :
  passes {| clientId := Some clientId_; clientSecret := Some clientSecret_;
            tenant := Some tenant_; enabled := Some enabled_ |} = true
  <-> enabled_ = false
      \/ (enabled_ = true /\ clientId_ <> [] /\ clientSecret_ <> []
          /\ tenant_ <> []).
Proof.
  rewrite passes_iff; cbn [clientId clientSecret tenant enabled].
  rewrite !truthy_Some_nonempty.
  destruct enabled_; split; intros [Hd | Hc];
    try congruence; try tauto; auto.
Qed.

Lemma validationSchema_required_fields_witness :
  passes Sample.filledIn = true.
Proof.
  apply (proj2 (validationSchema_required_fields
                  (lit "client") (lit "secret") (lit "tenant") true)).
  right. repeat split; discriminate.
Defined.

(** ** Loading and error states *)

(** C7: in the loading state placeholders are rendered.  [OverviewMetrics],
    while the metrics query is loading and has no data, renders one
    pulsing placeholder card per metric, six in all, and a placeholder card
    has no children, so no label and no value text;
    [AzureADProviderSettings], while the sign-in-methods query is loading,
    renders an activity indicator and no form. *)
Theorem loading_renders_placeholders `{Imports}
    (currentProject : option Project) (error_ : option ApolloError)
    (maintenanceActive : bool) (data_ : option SignInMethods.Data)
    (mounted : option UseFormReturn) :
  (exists grid caption,
     OverviewMetrics currentProject
       {| data := None; loading := true; error := error_ |}
     = ret (El "div" [("className", str "grid grid-flow-row gap-4")]
              [grid; caption])
     /\ children_of grid
        = (fun _ => placeholderCard) <$> cardElements None
     /\ children_of grid = replicate 6 placeholderCard
     /\ prop "className" (props_of placeholderCard)
        = Some (VStr (twMerge
                        [Some (lit "grid grid-flow-row gap-2 rounded-md px-4 py-3");
                         Some (lit "h-[92px] animate-pulse")]))
     /\ children_of placeholderCard = []
     /\ texts grid = [])
  /\
  (exists indicator,
     AzureADProviderSettings maintenanceActive currentProject
       {| data := data_; loading := true; error := error_ |} mounted
     = ret indicator
     /\ tag_of indicator = Some "ActivityIndicator"
     /\ children_of indicator = []
     /\ find "Form" indicator = None
     /\ find "SettingsContainer" indicator = None).
Proof.
  split.
  - do 2 eexists. split; [reflexivity|].
    repeat split; reflexivity.
  - eexists. split; [reflexivity|].
    repeat split; reflexivity.
Qed.

(** When [OverviewMetrics] throws, and what. *)
Lemma OverviewMetrics_outcome_throw `{Imports}
    (currentProject : option Project) (query : QueryResult ProjectMetrics)
    (t : Thrown) :
  outcome (OverviewMetrics currentProject query) = inl t
  <-> data query = None /\ loading query = false
      /\ exists e, error query = Some e /\ t = ThrownApolloError e.
Proof.
  unfold OverviewMetrics.
  destruct query as [[d|] [|] [e|]]; simpl; split;
    try (intros; discriminate);
    try (intros (Hd & Hl & e' & He & _); discriminate).
  - intros [= <-]. eauto.
  - intros (_ & _ & e' & [= ->] & ->). reflexivity.
Qed.

(** C2, as the code has it: [OverviewMetrics] throws the error of the
    metrics query exactly when the hook reports that error, has no data
    and is not loading; [AzureADProviderSettings] throws the error of the
    sign-in-methods query exactly when the hook reports that error and is
    not loading.  The throw happens during the render itself. *)
Theorem query_error_thrown_when_settled `{Imports}
    (currentProject : option Project) (e : ApolloError)
    (metricsQuery : QueryResult ProjectMetrics)
    (maintenanceActive : bool)
    (signInQuery : QueryResult SignInMethods.Data)
    (mounted : option UseFormReturn) :
  (outcome (OverviewMetrics currentProject metricsQuery)
   = inl (ThrownApolloError e)
   <-> data metricsQuery = None /\ loading metricsQuery = false
       /\ error metricsQuery = Some e)
  /\
  (outcome (AzureADProviderSettings maintenanceActive currentProject
              signInQuery mounted)
   = inl (ThrownApolloError e)
   <-> loading signInQuery = false /\ error signInQuery = Some e).
Proof.
  split.
  - rewrite OverviewMetrics_outcome_throw. split.
    + intros (Hd & Hl & e' & He & [= ->]). auto.
    + intros (Hd & Hl & He). eauto 10.
  - unfold AzureADProviderSettings.
    destruct signInQuery as [d [|] [e'|]]; simpl.
    + split; [discriminate | intros [? _]; discriminate].
    + split; [discriminate | intros [? _]; discriminate].
    + split; [intros [= ->]; auto | intros [_ [= ->]]; reflexivity].
    + split; [|intros [_ ?]; discriminate].
      destruct currentProject as [p|]; simpl; discriminate.
Qed.

Lemma query_error_thrown_when_settled_witness :
  outcome (OverviewMetrics (H := Sample.imports) (Some Sample.project)
             Sample.failedMetricsQuery)
  = inl (ThrownApolloError Sample.queryError)
  /\
  outcome (AzureADProviderSettings (H := Sample.imports) false
             (Some Sample.project) Sample.failedSignInQuery None)
  = inl (ThrownApolloError Sample.queryError).
Proof.
  pose proof (query_error_thrown_when_settled (H := Sample.imports)
                (Some Sample.project) Sample.queryError
                Sample.failedMetricsQuery false
                Sample.failedSignInQuery None) as [Hmetrics HsignIn].
  split.
  - apply (proj2 Hmetrics). repeat split; reflexivity.
  - apply (proj2 HsignIn). repeat split; reflexivity.
Defined.

(** C2 as stated fails: with data present, [OverviewMetrics] renders the
    cards although the hook reports an error; while loading,
    [AzureADProviderSettings] renders the activity indicator although the
    hook reports an error. *)
Lemma query_error_not_always_thrown :
  (error Sample.staleMetricsQuery = Some Sample.queryError
   /\ (exists cards,
         outcome (OverviewMetrics (H := Sample.imports)
                    (Some Sample.project) Sample.staleMetricsQuery)
         = inr cards)
   /\ outcome (OverviewMetrics (H := Sample.imports) (Some Sample.project)
                 Sample.staleMetricsQuery)
      <> inl (ThrownApolloError Sample.queryError))
  /\
  (error Sample.refetchingSignInQuery = Some Sample.queryError
   /\ (exists indicator,
         outcome (AzureADProviderSettings (H := Sample.imports) false
                    (Some Sample.project) Sample.refetchingSignInQuery None)
         = inr indicator
         /\ tag_of indicator = Some "ActivityIndicator")
   /\ outcome (AzureADProviderSettings (H := Sample.imports) false
                 (Some Sample.project) Sample.refetchingSignInQuery None)
      <> inl (ThrownApolloError Sample.queryError)).
Proof.
  split; (split; [reflexivity|]); split.
  - eexists. reflexivity.
  - discriminate.
  - eexists. split; reflexivity.
  - discriminate.
Qed.

(** ** The submit button *)

(** C1, as the code has it: in every render that shows the form (the query
    is not loading and reports no error), the submit button is disabled
    exactly when the form is not dirty or maintenance mode is active; it is
    enabled exactly when the form is dirty and maintenance mode is off.
    Whether the values satisfy the validation schema plays no part. *)
Theorem submit_disabled_until_dirty `{Imports}
    (maintenanceActive : bool) (currentProject : Project)
    (data_ : option SignInMethods.Data) (mounted : option UseFormReturn) :
  exists tree,
    outcome (AzureADProviderSettings maintenanceActive (Some currentProject)
               {| data := data_; loading := false; error := None |} mounted)
    = inr tree
    /\ tag_of <$> find "Form" tree = Some (Some "Form")
    /\ submitButtonDisabled tree
       = Some (negb (isDirty (useForm (useFormProps data_) mounted))
               || maintenanceActive)
    /\ (submitButtonDisabled tree = Some false
        <-> isDirty (useForm (useFormProps data_) mounted) = true
            /\ maintenanceActive = false).
Proof.
  eexists. split; [reflexivity|].
  split; [reflexivity|]. split; [reflexivity|].
  set (form := useForm (useFormProps data_) mounted).
  change (Some (negb (isDirty form) || maintenanceActive) = Some false
          <-> isDirty form = true /\ maintenanceActive = false).
  destruct (isDirty form), maintenanceActive; simpl; split;
    intros; try discriminate; try tauto; intuition discriminate.
Qed.

Lemma submit_disabled_until_dirty_witness :
  exists tree,
    outcome (AzureADProviderSettings (H := Sample.imports) false
               (Some Sample.project) Sample.loadedSignInQuery
               (Some Sample.editedForm))
    = inr tree
    /\ submitButtonDisabled tree = Some false.
Proof.
  destruct (submit_disabled_until_dirty (H := Sample.imports) false
              Sample.project (Some {| SignInMethods.config := None |})
              (Some Sample.editedForm)) as (tree & Htree & _ & _ & Henabled).
  exists tree. split; [exact Htree|].
  apply (proj2 Henabled). split; reflexivity.
Defined.

(** C1 as stated fails: a form that is dirty but does not satisfy the
    schema (the switch is on, the three fields are empty) has its submit
    button enabled. *)
Lemma submit_enabled_while_invalid :
  isDirty Sample.dirtyForm = true
  /\ passes (form_values Sample.dirtyForm) = false
  /\ exists tree,
      outcome (AzureADProviderSettings (H := Sample.imports) false
                 (Some Sample.project) Sample.loadedSignInQuery
                 (Some Sample.dirtyForm))
      = inr tree
      /\ submitButtonDisabled tree = Some false
      /\ submitButtonDisabled tree
         <> Some (negb (isDirty Sample.dirtyForm
                        && passes (form_values Sample.dirtyForm))).
Proof.
  split; [reflexivity|]. split; [reflexivity|].
  eexists. split; [reflexivity|]. split; [reflexivity|].
  discriminate.
Qed.

(** ** Painted trees *)

Lemma paint_props_no_handlers (ps : list (string * PropVal)) :
  Forall (fun q => is_handler q.2 = false ->
                   handlers_val (painted_val q.2) = []) ps ->
  concat ((fun q : string * PropVal => handlers_val q.2)
            <$> paint_props painted_val ps) = [].
Proof.
  induction 1 as [|[n v] rest Hv _ IH]; [reflexivity|].
  cbn [snd] in Hv.
  cbn [paint_props]. fold (paint_props painted_val rest).
  destruct (is_handler v) eqn:Hkind; [exact IH|].
  rewrite fmap_cons. cbn [concat snd].
  rewrite (Hv eq_refl). exact IH.
Qed.

(** A painted tree has no event handler left. *)
Lemma painted_no_handlers (e : Element) : handlers (painted e) = [].
Proof.
  induction e using Element_nested_ind
    with (Q := fun v => is_handler v = false ->
                        handlers_val (painted_val v) = []);
    try (intros; reflexivity); try discriminate.
  - (* El *)
    cbn [painted handlers].
    rewrite paint_props_no_handlers by assumption.
    match goal with Hkids : Forall _ kids |- _ =>
      induction Hkids as [|k rest Hk _ IH] end; [reflexivity|].
    rewrite !fmap_cons. cbn [concat app]. rewrite Hk. exact IH.
  - (* VElem *)
    intros _. assumption.
  - (* VObj *)
    intros _. cbn [painted_val handlers_val].
    by apply paint_props_no_handlers.
Qed.

(** ** HasuraConnectionInfo *)

Section HasuraConnectionInfoFacts.
Context `{Imports}.
Variables (close : option Action) (NEXT_PUBLIC_ENV : option jsstring)
          (isPlatform : bool).

(** The guard at the top of the component. *)
Lemma HasuraConnectionInfo_guard (currentProject : option Project) :
  truthy (currentProject ?. subdomain) = false
  \/ truthy (currentProject ?. Hooks.config
               ?. (fun c => adminSecret (hasura c))) = false ->
  HasuraConnectionInfo close NEXT_PUBLIC_ENV isPlatform currentProject
  = ret (El "LoadingScreen" [] []).
Proof.
  unfold HasuraConnectionInfo.
  intros [-> | ->]; simpl; [reflexivity|].
  by rewrite orb_true_r.
Qed.

(** Past the guard, the render makes at most one call: for the service
    'hasura', with the project's subdomain, and with the default remote
    slugs except that 'hasura' is mapped to '/console'. *)
Lemma HasuraConnectionInfo_calls (currentProject : option Project) :
  truthy (currentProject ?. subdomain) = true ->
  truthy (currentProject ?. Hooks.config
            ?. (fun c => adminSecret (hasura c))) = true ->
  Forall (fun c =>
            call_subdomain c = currentProject ?. subdomain
            /\ call_service c = "hasura"
            /\ exists slugs : gmap string jsstring,
                call_remoteBackendSlugs c = Some slugs
                /\ slugs !! "hasura" = Some (lit "/console")
                /\ forall service,
                    service <> "hasura" ->
                    slugs !! service = defaultRemoteBackendSlugs !! service)
    (calls (HasuraConnectionInfo close NEXT_PUBLIC_ENV isPlatform
              currentProject)).
Proof.
  unfold HasuraConnectionInfo.
  intros -> Hsecret. rewrite Hsecret. simpl negb. simpl orb. cbv iota.
  destruct (currentProject ?. Hooks.config
              ?. (fun c => adminSecret (hasura c))) as [secret|];
    [|discriminate].
  destruct (bool_decide (NEXT_PUBLIC_ENV = Some (lit "dev"))
            || negb isPlatform).
  - rewrite bind_ret_l. unfold member. rewrite bind_ret_l.
    unfold calls, ret. simpl. constructor.
  - unfold call_generateAppServiceUrl, member, bind, ret, calls.
    cbn [fst app]. constructor; [|constructor].
    cbn [call_subdomain call_service call_remoteBackendSlugs].
    split; [reflexivity|]. split; [reflexivity|].
    eexists. split; [reflexivity|]. split.
    + apply lookup_insert_eq.
    + intros service Hservice. by apply lookup_insert_ne.
Qed.

End HasuraConnectionInfoFacts.

Lemma truthy_false_iff (s : option jsstring) :
  truthy s = false <-> s = None \/ s = Some [].
Proof.
  destruct s as [[|c r]|]; simpl; split; intros; try tauto; try discriminate;
    intuition discriminate.
Qed.

Lemma truthy_true_iff (s : option jsstring) :
  truthy s = true <-> exists r, s = Some r /\ r <> [].
Proof.
  destruct s as [[|c r]|]; simpl; split; try discriminate.
  - intros (r & [= <-] & Hr). congruence.
  - intros _. eexists. split; [reflexivity | discriminate].
  - reflexivity.
  - intros (r & [=] & _).
Qed.

(** C9: in every render of [HasuraConnectionInfo] in which the project's
    subdomain or its Hasura admin secret is missing or empty, the
    component returns the loading screen, having called
    [generateAppServiceUrl] not at all; and in every render, each call of
    [generateAppServiceUrl] gets a subdomain that is present and
    non-empty. *)
Theorem HasuraConnectionInfo_guards_subdomain `{Imports}
    (close : option Action) (NEXT_PUBLIC_ENV : option jsstring)
    (isPlatform : bool) (currentProject : option Project) :
  (currentProject ?. subdomain = None
   \/ currentProject ?. subdomain = Some []
   \/ currentProject ?. Hooks.config ?. (fun c => adminSecret (hasura c))
      = None
   \/ currentProject ?. Hooks.config ?. (fun c => adminSecret (hasura c))
      = Some [] ->
   outcome (HasuraConnectionInfo close NEXT_PUBLIC_ENV isPlatform
              currentProject)
   = inr (El "LoadingScreen" [] [])
   /\ calls (HasuraConnectionInfo close NEXT_PUBLIC_ENV isPlatform
               currentProject) = [])
  /\
  Forall (fun c => exists s, call_subdomain c = Some s /\ s <> [])
    (calls (HasuraConnectionInfo close NEXT_PUBLIC_ENV isPlatform
              currentProject)).
Proof.
  split.
  - intros Hmissing.
    rewrite HasuraConnectionInfo_guard; [split; reflexivity|].
    rewrite !truthy_false_iff. tauto.
  - destruct (truthy (currentProject ?. subdomain)) eqn:Hsub;
      [destruct (truthy (currentProject ?. Hooks.config
                           ?. (fun c => adminSecret (hasura c)))) eqn:Hsec|].
    + eapply Forall_impl;
        [apply HasuraConnectionInfo_calls; assumption|].
      intros c [Hc _]. rewrite Hc.
      by apply truthy_true_iff.
    + rewrite HasuraConnectionInfo_guard by auto. constructor.
    + rewrite HasuraConnectionInfo_guard by auto. constructor.
Qed.

Lemma HasuraConnectionInfo_guards_subdomain_witness :
  outcome (HasuraConnectionInfo (H := Sample.imports) None None true
             (Some (with_adminSecret Sample.project [])))
  = inr (El "LoadingScreen" [] []).
Proof.
  apply (proj1 (HasuraConnectionInfo_guards_subdomain (H := Sample.imports)
                  None None true
                  (Some (with_adminSecret Sample.project [])))).
  right. right. right. reflexivity.
Defined.

(** The handlers of the rendered panel and its texts. *)
Lemma HasuraConnectionInfo_rendered `{Imports}
    (close : option Action) (NEXT_PUBLIC_ENV : option jsstring)
    (isPlatform : bool) (p : Project) (c : N) (r : jsstring) :
  truthy (subdomain p) = true ->
  exists tree,
    outcome (HasuraConnectionInfo close NEXT_PUBLIC_ENV isPlatform
               (Some (with_adminSecret p (c :: r))))
    = inr tree
    /\ handlers tree
       = ACopy (c :: r) (lit "Hasura admin secret") :: option_list close
    /\ texts tree
       = [lit "Open Hasura";
          lit "Hasura is the dashboard you'll use to edit your schema and permissions as well as browse data. Copy the admin secret to your clipboard and enter it in the next screen.";
          lit "Admin Secret";
          replicate (length (c :: r)) 0x2022%N;
          lit "Open Hasura"]
         ++ match close with Some _ => [lit "Cancel"] | None => [] end.
Proof.
  intros Hsub. unfold HasuraConnectionInfo.
  cbn [mbind option_bind with_adminSecret subdomain Hooks.config hasura
       adminSecret].
  rewrite Hsub. cbn [truthy negb orb].
  destruct (bool_decide (NEXT_PUBLIC_ENV = Some (lit "dev"))
            || negb isPlatform).
  - rewrite bind_ret_l. unfold member. rewrite bind_ret_l.
    eexists. split; [reflexivity|].
    rewrite masked_is_bullets.
    destruct close; split; reflexivity.
  - unfold call_generateAppServiceUrl, member, bind, ret, outcome.
    cbn [snd].
    eexists. split; [reflexivity|].
    rewrite masked_is_bullets.
    destruct close; split; reflexivity.
Qed.

(** What [HasuraConnectionInfo] paints is a function of the length of the
    admin secret. *)
Lemma HasuraConnectionInfo_screen_by_length `{Imports}
    (close : option Action) (NEXT_PUBLIC_ENV : option jsstring)
    (isPlatform : bool) (p : Project) (s1 s2 : jsstring) :
  length s1 = length s2 ->
  screen (HasuraConnectionInfo close NEXT_PUBLIC_ENV isPlatform
            (Some (with_adminSecret p s1)))
  = screen (HasuraConnectionInfo close NEXT_PUBLIC_ENV isPlatform
              (Some (with_adminSecret p s2))).
Proof.
  intros Hlen.
  destruct s1 as [|c1 r1], s2 as [|c2 r2]; try discriminate Hlen.
  - reflexivity.
  - unfold HasuraConnectionInfo.
    cbn [mbind option_bind with_adminSecret subdomain Hooks.config hasura
         adminSecret].
    destruct (truthy (subdomain p)); cbn [truthy negb orb]; [|reflexivity].
    destruct (bool_decide (NEXT_PUBLIC_ENV = Some (lit "dev"))
              || negb isPlatform).
    + rewrite !bind_ret_l. unfold member. rewrite !bind_ret_l.
      unfold screen, outcome, ret. cbn [snd].
      rewrite !masked_is_bullets, Hlen.
      destruct close; reflexivity.
    + unfold call_generateAppServiceUrl, member, bind, ret, screen, outcome.
      cbn [snd].
      rewrite !masked_is_bullets, Hlen.
      destruct close; reflexivity.
Qed.

(** C8: [HasuraConnectionInfo] never renders the admin secret itself.  For
    two projects that differ in their admin secrets only, and whose
    secrets have the same length, what is put on the screen is the same;
    when the panel is shown, the secret's place is taken by as many '•' as
    the secret has code units, and the secret itself is found in one place
    only, the argument of the clipboard copy behind the copy button. *)
Theorem adminSecret_rendered_by_length_only `{Imports}
    (close : option Action) (NEXT_PUBLIC_ENV : option jsstring)
    (isPlatform : bool) (p : Project) (secret other : jsstring) :
  length secret = length other ->
  screen (HasuraConnectionInfo close NEXT_PUBLIC_ENV isPlatform
            (Some (with_adminSecret p secret)))
  = screen (HasuraConnectionInfo close NEXT_PUBLIC_ENV isPlatform
              (Some (with_adminSecret p other)))
  /\
  (truthy (subdomain p) = true -> secret <> [] ->
   exists tree,
     outcome (HasuraConnectionInfo close NEXT_PUBLIC_ENV isPlatform
                (Some (with_adminSecret p secret)))
     = inr tree
     /\ handlers tree
        = ACopy secret (lit "Hasura admin secret") :: option_list close
     /\ texts tree
        = [lit "Open Hasura";
           lit "Hasura is the dashboard you'll use to edit your schema and permissions as well as browse data. Copy the admin secret to your clipboard and enter it in the next screen.";
           lit "Admin Secret";
           replicate (length secret) 0x2022%N;
           lit "Open Hasura"]
          ++ match close with Some _ => [lit "Cancel"] | None => [] end
     /\ handlers (painted tree) = []).
Proof.
  intros Hlen. split.
  - by apply HasuraConnectionInfo_screen_by_length.
  - intros Hsub Hsecret.
    destruct secret as [|c r]; [congruence|].
    destruct (HasuraConnectionInfo_rendered close NEXT_PUBLIC_ENV isPlatform
                p c r Hsub) as (tree & Htree & Hhandlers & Htexts).
    exists tree. repeat split; try assumption.
    apply painted_no_handlers.
Qed.

Lemma adminSecret_rendered_by_length_only_witness :
  screen (HasuraConnectionInfo (H := Sample.imports) None None true
            (Some (with_adminSecret Sample.project (lit "s3cret"))))
  = screen (HasuraConnectionInfo (H := Sample.imports) None None true
              (Some (with_adminSecret Sample.project (lit "hunter"))))
  /\ exists tree,
      outcome (HasuraConnectionInfo (H := Sample.imports) None None true
                 (Some (with_adminSecret Sample.project (lit "s3cret"))))
      = inr tree
      /\ handlers tree
         = [ACopy (lit "s3cret") (lit "Hasura admin secret")].
Proof.
  destruct (adminSecret_rendered_by_length_only (H := Sample.imports)
              None None true Sample.project (lit "s3cret") (lit "hunter")
              eq_refl) as [Hscreen Hshown].
  split; [exact Hscreen|].
  destruct Hshown as (tree & Htree & Hhandlers & _);
    [reflexivity | discriminate |].
  exists tree. split; assumption.
Defined.

(** ** The submit handler *)

Section HandlerFacts.
Context `{Imports}.
Variables (respond : UpdateConfigVariables -> Settled unit)
          (currentProject : Project)
          (values : AzureADProviderFormValues).

(** The variables of the mutation the handler sends. *)
Let variables : UpdateConfigVariables :=
  {| appId := id currentProject;
     config :=
       {| auth := {| method := {| oauth := {| azuread := values |} |} |} |}
  |}.

(** One run of the handler, from start to the settling of its promise. *)
Lemma handleProviderUpdate_run (w : World) :
  handleProviderUpdate respond (Some currentProject) values w
  = ({| world_form :=
          match respond variables with
          | Fulfilled _ => reset values (world_form w)
          | Rejected _ => world_form w
          end;
        world_toasts :=
          world_toasts w
          ++ [ToastLoading (lit "Azure AD settings are being updated...")
                getToastStyleProps;
              match respond variables with
              | Fulfilled _ =>
                  ToastSuccess
                    (lit "Azure AD settings have been updated successfully.")
                    getToastStyleProps
              | Rejected reason =>
                  ToastError
                    (resolveValue
                       (getServerError
                          (lit "An error occurred while trying to update the project's Azure AD settings."))
                       reason)
                    getToastStyleProps
              end];
        world_mutations := world_mutations w ++ [variables] |},
     Fulfilled tt).
Proof.
  unfold handleProviderUpdate, member_async, then_, try_catch, resolve,
    updateConfig, toast_promise, await, form_reset.
  fold variables.
  destruct (respond variables) as [[]|reason]; reflexivity.
Qed.

End HandlerFacts.

(** The toasts of one submission, for any [getServerError]: the loading
    toast, then the success toast when the mutation resolves, or the error
    toast with what [getServerError] makes of the copy it is given. *)
Lemma handleProviderUpdate_toasts `{Imports}
    (respond : UpdateConfigVariables -> Settled unit)
    (currentProject : Project) (values : AzureADProviderFormValues)
    (w : World) :
  world_toasts
    (handleProviderUpdate respond (Some currentProject) values w).1
  = world_toasts w
    ++ [ToastLoading (lit "Azure AD settings are being updated...")
          getToastStyleProps;
        match respond {| appId := id currentProject;
                         config :=
                           {| auth :=
                                {| method :=
                                     {| oauth := {| azuread := values |} |}
                                |} |} |} with
        | Fulfilled _ =>
            ToastSuccess
              (lit "Azure AD settings have been updated successfully.")
              getToastStyleProps
        | Rejected reason =>
            ToastError
              (resolveValue
                 (getServerError
                    (lit "An error occurred while trying to update the project's Azure AD settings."))
                 reason)
              getToastStyleProps
        end].
Proof. rewrite handleProviderUpdate_run. reflexivity. Qed.

(** C3: for every submission of the Azure AD settings form a toast is
    displayed on both outcomes of the update-config mutation, after the
    loading toast.  Whatever [getServerError] is, a resolved mutation
    gives the success toast with the copy "Azure AD settings have been
    updated successfully." and a rejected one gives an error toast; and
    with the [getServerError] of the spec, the error toast has the copy
    "An error occurred while trying to update the project's Azure AD
    settings.", the same for every reason of the rejection. *)
Theorem toast_static_copy_on_both_outcomes (I : Imports)
    (respond : UpdateConfigVariables -> Settled unit)
    (values : AzureADProviderFormValues) (w : World) :
  (forall currentProject : Project (H := I),
   exists shown,
     world_toasts
       (handleProviderUpdate (H := I) respond (Some currentProject)
          values w).1
     = world_toasts w
       ++ [ToastLoading (lit "Azure AD settings are being updated...")
             (@getToastStyleProps I);
           shown]
     /\ match respond {| appId := id currentProject;
                         config :=
                           {| auth :=
                                {| method :=
                                     {| oauth := {| azuread := values |} |}
                                |} |} |} with
        | Fulfilled _ =>
            shown
            = ToastSuccess
                (lit "Azure AD settings have been updated successfully.")
                (@getToastStyleProps I)
        | Rejected reason =>
            exists msg, shown = ToastError msg (@getToastStyleProps I)
        end)
  /\
  forall currentProject : Project (H := FromSpec.imports I),
  world_toasts
    (handleProviderUpdate (H := FromSpec.imports I) respond
       (Some currentProject) values w).1
  = world_toasts w
    ++ [ToastLoading (lit "Azure AD settings are being updated...")
          (@getToastStyleProps I);
        match respond {| appId := id currentProject;
                         config :=
                           {| auth :=
                                {| method :=
                                     {| oauth := {| azuread := values |} |}
                                |} |} |} with
        | Fulfilled _ =>
            ToastSuccess
              (lit "Azure AD settings have been updated successfully.")
              (@getToastStyleProps I)
        | Rejected _ =>
            ToastError
              (lit "An error occurred while trying to update the project's Azure AD settings.")
              (@getToastStyleProps I)
        end].
Proof.
  split; intros currentProject.
  - rewrite (handleProviderUpdate_run (H := I)). cbn [fst world_toasts].
    eexists. split; [reflexivity|].
    destruct (respond _) as [[]|reason]; [reflexivity|].
    eexists. reflexivity.
  - rewrite (handleProviderUpdate_run (H := FromSpec.imports I)).
    cbn [fst world_toasts].
    destruct (respond _) as [[]|reason]; reflexivity.
Qed.

(** C10: in the submit handler the form is reset only after a successful
    mutation.  When the update-config mutation rejects, the handler's own
    promise still fulfils (the error is not rethrown), and the form is the
    form it was: same values, same defaults, same dirty state.  And
    whenever the handler did change the form, the mutation had
    resolved. *)
Theorem failed_update_keeps_form `{Imports}
    (respond : UpdateConfigVariables -> Settled unit)
    (currentProject : Project) (values : AzureADProviderFormValues)
    (w : World) :
  (forall reason,
     respond {| appId := id currentProject;
                config :=
                  {| auth :=
                       {| method := {| oauth := {| azuread := values |} |} |}
                  |} |} = Rejected reason ->
     (handleProviderUpdate respond (Some currentProject) values w).2
     = Fulfilled tt
     /\ world_form
          (handleProviderUpdate respond (Some currentProject) values w).1
        = world_form w
     /\ form_values
          (world_form
             (handleProviderUpdate respond (Some currentProject) values w).1)
        = form_values (world_form w)
     /\ isDirty
          (world_form
             (handleProviderUpdate respond (Some currentProject) values w).1)
        = isDirty (world_form w))
  /\
  (world_form (handleProviderUpdate respond (Some currentProject) values w).1
   <> world_form w ->
   respond {| appId := id currentProject;
              config :=
                {| auth :=
                     {| method := {| oauth := {| azuread := values |} |} |}
                |} |} = Fulfilled tt).
Proof.
  rewrite handleProviderUpdate_run. cbn [fst snd world_form].
  split.
  - intros reason ->. repeat split; reflexivity.
  - destruct (respond _) as [[]|reason]; [reflexivity|].
    intros Hchanged. by destruct Hchanged.
Qed.

Lemma failed_update_keeps_form_witness :
  (handleProviderUpdate (H := Sample.imports)
     (fun _ => Rejected (ThrownApolloError Sample.queryError))
     (Some Sample.project) Sample.filledIn Sample.world).2
  = Fulfilled tt
  /\ world_form
       (handleProviderUpdate (H := Sample.imports)
          (fun _ => Rejected (ThrownApolloError Sample.queryError))
          (Some Sample.project) Sample.filledIn Sample.world).1
     = Sample.editedForm.
Proof.
  destruct (proj1 (failed_update_keeps_form (H := Sample.imports)
                     (fun _ => Rejected (ThrownApolloError Sample.queryError))
                     Sample.project Sample.filledIn Sample.world)
              (ThrownApolloError Sample.queryError) eq_refl)
    as (Hresult & Hform & _).
  split; assumption.
Defined.

Lemma str_or_empty_default (s : option jsstring) :
  str_or s (lit "") = default [] s.
Proof. by destruct s as [[|c r]|]. Qed.

Lemma bool_or_false_default (b : option bool) :
  bool_or b false = default false b.
Proof. by destruct b as [[|]|]. Qed.

(** C6: the form's values mirror the [azuread] subtree of the remote
    configuration.  The query is read with the cache-only fetch policy;
    the form created at the first render has as defaults, field by field
    and for every cached data, the field of the subtree where it is
    present, and the empty string or [false] where the subtree or that
    field is missing (so a partly configured subtree keeps the fields it
    has); on submit the
    handler sends one update-config mutation that carries the submitted
    values under [auth.method.oauth.azuread] for the current project; and
    when that mutation resolves, the form is reset to the submitted
    values: they are its values and its defaults, and it is not dirty. *)
Theorem form_mirrors_azuread_config `{Imports}
    (currentProject : Project) (data_ : option SignInMethods.Data)
    (clientId_ clientSecret_ tenant_ : jsstring) (enabled_ : bool)
    (respond : UpdateConfigVariables -> Settled unit)
    (values : AzureADProviderFormValues) (w : World) :
  SignInMethods.fetchPolicy (signInMethodsQueryOptions (Some currentProject))
  = CacheOnly
  /\
  form_defaultValues (useForm (useFormProps data_) None)
  = {| clientId :=
         Some (default []
                 (data_ ?. SignInMethods.config ?. SignInMethods.auth
                        ?. SignInMethods.method ?. SignInMethods.oauth
                        ?. SignInMethods.azuread
                        ?. SignInMethods.clientId));
       clientSecret :=
         Some (default []
                 (data_ ?. SignInMethods.config ?. SignInMethods.auth
                        ?. SignInMethods.method ?. SignInMethods.oauth
                        ?. SignInMethods.azuread
                        ?. SignInMethods.clientSecret));
       tenant :=
         Some (default []
                 (data_ ?. SignInMethods.config ?. SignInMethods.auth
                        ?. SignInMethods.method ?. SignInMethods.oauth
                        ?. SignInMethods.azuread
                        ?. SignInMethods.tenant));
       enabled :=
         Some (default false
                 (data_ ?. SignInMethods.config ?. SignInMethods.auth
                        ?. SignInMethods.method ?. SignInMethods.oauth
                        ?. SignInMethods.azuread
                        ?. SignInMethods.enabled)) |}
  /\
  (data_ ?. SignInMethods.config ?. SignInMethods.auth
         ?. SignInMethods.method ?. SignInMethods.oauth
         ?. SignInMethods.azuread
   = Some {| SignInMethods.clientId := Some clientId_;
             SignInMethods.clientSecret := Some clientSecret_;
             SignInMethods.tenant := Some tenant_;
             SignInMethods.enabled := Some enabled_ |} ->
   form_defaultValues (useForm (useFormProps data_) None)
   = {| clientId := Some clientId_; clientSecret := Some clientSecret_;
        tenant := Some tenant_; enabled := Some enabled_ |})
  /\
  (data_ ?. SignInMethods.config ?. SignInMethods.auth
         ?. SignInMethods.method ?. SignInMethods.oauth
         ?. SignInMethods.azuread = None
   \/ data_ ?. SignInMethods.config ?. SignInMethods.auth
            ?. SignInMethods.method ?. SignInMethods.oauth
            ?. SignInMethods.azuread
      = Some {| SignInMethods.clientId := None;
                SignInMethods.clientSecret := None;
                SignInMethods.tenant := None;
                SignInMethods.enabled := None |} ->
   form_defaultValues (useForm (useFormProps data_) None)
   = {| clientId := Some []; clientSecret := Some [];
        tenant := Some []; enabled := Some false |})
  /\
  world_mutations
    (handleProviderUpdate respond (Some currentProject) values w).1
  = world_mutations w
    ++ [{| appId := id currentProject;
           config :=
             {| auth :=
                  {| method := {| oauth := {| azuread := values |} |} |} |}
        |}]
  /\
  (respond {| appId := id currentProject;
              config :=
                {| auth :=
                     {| method := {| oauth := {| azuread := values |} |} |}
                |} |} = Fulfilled tt ->
   world_form (handleProviderUpdate respond (Some currentProject) values w).1
   = reset values (world_form w)
   /\ form_values
        (world_form
           (handleProviderUpdate respond (Some currentProject) values w).1)
      = values
   /\ form_defaultValues
        (world_form
           (handleProviderUpdate respond (Some currentProject) values w).1)
      = values
   /\ isDirty
        (world_form
           (handleProviderUpdate respond (Some currentProject) values w).1)
      = false).
Proof.
  rewrite handleProviderUpdate_run. cbn [fst world_form world_mutations].
  split; [reflexivity|]. split; [|split; [|split; [|split; [reflexivity|]]]].
  - unfold useForm, useFormProps. cbn [defaultValues form_defaultValues].
    by rewrite !str_or_empty_default, bool_or_false_default.
  - unfold useForm, useFormProps. cbn [defaultValues form_defaultValues].
    intros ->.
    cbn [mbind option_bind SignInMethods.clientId SignInMethods.clientSecret
         SignInMethods.tenant SignInMethods.enabled].
    by rewrite !str_or_Some_empty, bool_or_Some_false.
  - unfold useForm, useFormProps. cbn [defaultValues form_defaultValues].
    intros [-> | ->]; reflexivity.
  - intros ->. split; [reflexivity|]. split; [reflexivity|].
    split; [reflexivity|].
    unfold isDirty, reset. cbn [form_values form_defaultValues].
    by rewrite bool_decide_eq_true_2.
Qed.

Lemma form_mirrors_azuread_config_witness :
  form_defaultValues
    (useForm (useFormProps (Some Sample.configuredData)) None)
  = Sample.filledIn
  /\ form_defaultValues
       (useForm (useFormProps None) None)
     = Sample.untouched
  /\ form_defaultValues
       (useForm (useFormProps (Some Sample2.partlyConfiguredData)) None)
     = {| clientId := Some (lit "client"); clientSecret := Some (lit "");
          tenant := Some (lit ""); enabled := Some true |}
  /\ isDirty
       (world_form
          (handleProviderUpdate (H := Sample.imports)
             (fun _ => Fulfilled tt) (Some Sample.project) Sample.filledIn
             Sample.world).1)
     = false.
Proof.
  destruct (form_mirrors_azuread_config (H := Sample.imports)
              Sample.project (Some Sample.configuredData)
              (lit "client") (lit "secret") (lit "tenant") true
              (fun _ => Fulfilled tt) Sample.filledIn Sample.world)
    as (_ & _ & Hpresent & _ & _ & Hreset).
  destruct (form_mirrors_azuread_config (H := Sample.imports)
              Sample.project None
              (lit "client") (lit "secret") (lit "tenant") true
              (fun _ => Fulfilled tt) Sample.filledIn Sample.world)
    as (_ & _ & _ & Hmissing & _ & _).
  split; [exact (Hpresent eq_refl)|].
  split; [exact (Hmissing (or_introl eq_refl))|].
  split;
    [exact (proj1 (proj2 (form_mirrors_azuread_config (H := Sample.imports)
                            Sample.project
                            (Some Sample2.partlyConfiguredData)
                            (lit "client") (lit "secret") (lit "tenant") true
                            (fun _ => Fulfilled tt) Sample.filledIn
                            Sample.world)))|].
  exact (proj2 (proj2 (proj2 (Hreset eq_refl)))).
Defined.


(** * Further properties of the components *)

(** ** MetricsCard and OverviewMetrics *)

(** X1: [MetricsCard] shows the label and the value that are non-empty
    strings, the label first, and nothing else: an [undefined] or empty
    label or value leaves no element behind; the class name it is given is
    merged after the card's own classes. *)
Theorem MetricsCard_shows_nonempty `{Imports}
    (label value className : option jsstring) :
  texts (MetricsCard label value className)
  = (if truthy label then [default [] label] else [])
    ++ (if truthy value then [default [] value] else [])
  /\ tag_of <$> children_of (MetricsCard label value className)
     = (if truthy label then [Some "Text"] else [])
       ++ (if truthy value then [Some "Text"] else [])
  /\ prop "className" (props_of (MetricsCard label value className))
     = Some (VStr (twMerge
                     [Some (lit "grid grid-flow-row gap-2 rounded-md px-4 py-3");
                      className])).
Proof.
  destruct label as [[|c1 r1]|], value as [[|c2 r2]|];
    repeat split; reflexivity.
Qed.

Lemma cardElements_labels `{Imports} (data_ : option ProjectMetrics) :
  (cardElements data_).*1
  = [lit "CPU Usage Seconds"; lit "Total Requests";
     lit "Function Invocations"; lit "Postgres Usage";
     lit "Postgres Capacity"; lit "Logs"].
Proof. reflexivity. Qed.

(** X2: once the metrics query has data, [OverviewMetrics] shows it
    whatever else the hook reports: the render is the same while a refetch
    is loading and when an error is set, it does not throw, and it is the
    grid of six cards, one per metric in the fixed order of the labels,
    each made by [MetricsCard] from the metric's label and text. *)
Theorem OverviewMetrics_with_data_shows_cards `{Imports}
    (currentProject : option Project) (metrics : ProjectMetrics)
    (loading_ : bool) (error_ : option ApolloError) :
  OverviewMetrics currentProject
    {| data := Some metrics; loading := loading_; error := error_ |}
  = OverviewMetrics currentProject
      {| data := Some metrics; loading := false; error := None |}
  /\ exists grid caption,
      outcome (OverviewMetrics currentProject
                 {| data := Some metrics; loading := loading_;
                    error := error_ |})
      = inr (El "div" [("className", str "grid grid-flow-row gap-4")]
               [grid; caption])
      /\ children_of grid
         = (fun element : jsstring * jsstring =>
              MetricsCard (Some element.1) (Some element.2) None)
             <$> cardElements (Some metrics)
      /\ length (children_of grid) = 6
      /\ (cardElements (Some metrics)).*1
         = [lit "CPU Usage Seconds"; lit "Total Requests";
            lit "Function Invocations"; lit "Postgres Usage";
            lit "Postgres Capacity"; lit "Logs"]
      /\ texts caption
         = [lit "Your resource usage since the beginning of the month."].
Proof.
  split.
  - destruct loading_, error_; reflexivity.
  - destruct loading_, error_; do 2 eexists;
      (split; [reflexivity|]); repeat split; reflexivity.
Qed.

Lemma num_or_zero_idempotent `{Imports} (v : option number) :
  num_or_zero (Some (num_or_zero v)) = num_or_zero v.
Proof.
  unfold num_or_zero.
  destruct v as [n|].
  - destruct (number_truthy n) eqn:Hn.
    + by rewrite Hn.
    + by destruct (number_truthy zero).
  - by destruct (number_truthy zero).
Qed.

(** X3: what a settled [OverviewMetrics] shows depends on its data only
    through the six numbers [value || 0]: a metric that is missing, a
    metric without a value and a metric whose value is falsy are shown
    alike, and so is the absence of all data. *)
Theorem OverviewMetrics_missing_is_zero `{Imports}
    (currentProject : option Project)
    (data1 data2 : option ProjectMetrics) :
  num_or_zero (data1 ?. cpuSecondsUsage ?. value)
  = num_or_zero (data2 ?. cpuSecondsUsage ?. value) ->
  num_or_zero (data1 ?. totalRequests ?. value)
  = num_or_zero (data2 ?. totalRequests ?. value) ->
  num_or_zero (data1 ?. functionInvocations ?. value)
  = num_or_zero (data2 ?. functionInvocations ?. value) ->
  num_or_zero (data1 ?. postgresVolumeUsage ?. value)
  = num_or_zero (data2 ?. postgresVolumeUsage ?. value) ->
  num_or_zero (data1 ?. postgresVolumeCapacity ?. value)
  = num_or_zero (data2 ?. postgresVolumeCapacity ?. value) ->
  num_or_zero (data1 ?. logsVolume ?. value)
  = num_or_zero (data2 ?. logsVolume ?. value) ->
  OverviewMetrics currentProject
    {| data := data1; loading := false; error := None |}
  = OverviewMetrics currentProject
      {| data := data2; loading := false; error := None |}.
Proof.
  intros Hcpu Hreq Hfun Husage Hcap Hlogs.
  unfold OverviewMetrics, cardElements. cbn [data loading error].
  rewrite Hcpu, Hreq, Hfun, Husage, Hcap, Hlogs.
  rewrite !andb_false_r.
  destruct data1, data2; reflexivity.
Qed.

Lemma OverviewMetrics_missing_is_zero_witness :
  OverviewMetrics (H := Sample.imports) (Some Sample.project)
    {| data := Some Sample.metrics; loading := false; error := None |}
  = OverviewMetrics (H := Sample.imports) (Some Sample.project)
      {| data := Some Sample2.metricsSpelledOut; loading := false;
         error := None |}.
Proof.
  apply (OverviewMetrics_missing_is_zero (H := Sample.imports)
           (Some Sample.project) (Some Sample.metrics)
           (Some Sample2.metricsSpelledOut)); reflexivity.
Defined.

(** ** HasuraConnectionInfo *)

(** X5: past its guard, [HasuraConnectionInfo] links the Open Hasura button
    to the console service URL of the environment when
    [NEXT_PUBLIC_ENV] is 'dev' or the dashboard does not run on the
    platform, and then calls [generateAppServiceUrl] not at all; otherwise
    the link is what [generateAppServiceUrl] returns for the project's
    subdomain and region, the service 'hasura', the default local slugs
    and the default remote slugs with 'hasura' set to '/console', and that
    is the one call of the render. *)
Theorem HasuraConnectionInfo_link `{Imports}
    (close : option Action) (NEXT_PUBLIC_ENV : option jsstring)
    (isPlatform : bool) (currentProject : option Project) :
  truthy (currentProject ?. subdomain) = true ->
  truthy (currentProject ?. Hooks.config
            ?. (fun c => adminSecret (hasura c))) = true ->
  exists tree,
    outcome (HasuraConnectionInfo close NEXT_PUBLIC_ENV isPlatform
               currentProject) = inr tree
    /\ if bool_decide (NEXT_PUBLIC_ENV = Some (lit "dev")) || negb isPlatform
       then
         buttonHref tree = Some getHasuraConsoleServiceUrl
         /\ calls (HasuraConnectionInfo close NEXT_PUBLIC_ENV isPlatform
                     currentProject) = []
       else
         buttonHref tree
         = Some (generateAppServiceUrl
                   (currentProject ?. subdomain)
                   (region <$> currentProject) "hasura"
                   (Some defaultLocalBackendSlugs)
                   (Some (<["hasura" := lit "/console"]>
                            defaultRemoteBackendSlugs)))
         /\ calls (HasuraConnectionInfo close NEXT_PUBLIC_ENV isPlatform
                     currentProject)
            = [ {| call_subdomain := currentProject ?. subdomain;
                   call_region := region <$> currentProject;
                   call_service := "hasura";
                   call_localBackendSlugs := Some defaultLocalBackendSlugs;
                   call_remoteBackendSlugs :=
                     Some (<["hasura" := lit "/console"]>
                             defaultRemoteBackendSlugs) |} ].
Proof.
  unfold HasuraConnectionInfo.
  intros -> Hsecret. rewrite Hsecret. cbn [negb orb].
  destruct (currentProject ?. Hooks.config
              ?. (fun c => adminSecret (hasura c))) as [secret|];
    [|discriminate].
  destruct (bool_decide (NEXT_PUBLIC_ENV = Some (lit "dev"))
            || negb isPlatform).
  - rewrite bind_ret_l. unfold member. rewrite bind_ret_l.
    eexists. split; [reflexivity|]. split; reflexivity.
  - unfold call_generateAppServiceUrl, member, bind, ret, outcome, calls.
    cbn [fst snd app].
    eexists. split; [reflexivity|]. split; reflexivity.
Qed.

Lemma HasuraConnectionInfo_link_witness :
  exists tree,
    outcome (HasuraConnectionInfo (H := Sample.imports) None
               (Some (lit "dev")) true (Some Sample.project)) = inr tree
    /\ buttonHref tree = Some (lit "http://localhost:9695").
Proof.
  destruct (HasuraConnectionInfo_link (H := Sample.imports) None
              (Some (lit "dev")) true (Some Sample.project)
              eq_refl eq_refl) as (tree & Htree & Hlink).
  exists tree. split; [exact Htree|]. exact (proj1 Hlink).
Defined.

(** X6: [HasuraConnectionInfo] never throws, whatever the hooks return
    (the read of the secret's length lies behind the guard), and what it
    returns is the loading screen exactly when the project's subdomain or
    its admin secret is missing or empty. *)
Theorem HasuraConnectionInfo_never_throws `{Imports}
    (close : option Action) (NEXT_PUBLIC_ENV : option jsstring)
    (isPlatform : bool) (currentProject : option Project) :
  exists tree,
    outcome (HasuraConnectionInfo close NEXT_PUBLIC_ENV isPlatform
               currentProject) = inr tree
    /\ (tree = El "LoadingScreen" [] []
        <-> truthy (currentProject ?. subdomain) = false
            \/ truthy (currentProject ?. Hooks.config
                         ?. (fun c => adminSecret (hasura c))) = false).
Proof.
  destruct (truthy (currentProject ?. subdomain)) eqn:Hsub;
    [destruct (truthy (currentProject ?. Hooks.config
                         ?. (fun c => adminSecret (hasura c)))) eqn:Hsec|].
  - unfold HasuraConnectionInfo. rewrite Hsub, Hsec. cbn [negb orb].
    destruct (currentProject ?. Hooks.config
                ?. (fun c => adminSecret (hasura c))) as [secret|];
      [|discriminate].
    destruct (bool_decide (NEXT_PUBLIC_ENV = Some (lit "dev"))
              || negb isPlatform).
    + rewrite bind_ret_l. unfold member. rewrite bind_ret_l.
      eexists. split; [reflexivity|].
      split; [discriminate | intros [?|?]; discriminate].
    + unfold call_generateAppServiceUrl, member, bind, ret, outcome.
      cbn [snd].
      eexists. split; [reflexivity|].
      split; [discriminate | intros [?|?]; discriminate].
  - rewrite HasuraConnectionInfo_guard by auto.
    eexists. split; [reflexivity|]. split; auto.
  - rewrite HasuraConnectionInfo_guard by auto.
    eexists. split; [reflexivity|]. split; auto.
Qed.

Lemma HasuraConnectionInfo_never_throws_witness :
  exists tree,
    outcome (HasuraConnectionInfo (H := Sample.imports) None None true None)
    = inr tree
    /\ tree = El "LoadingScreen" [] [].
Proof.
  destruct (HasuraConnectionInfo_never_throws (H := Sample.imports)
              None None true None) as (tree & Htree & Hloading).
  exists tree. split; [exact Htree|].
  apply (proj2 Hloading). left. reflexivity.
Defined.

(** ** AzureADProviderSettings *)

(** X7: [AzureADProviderSettings] reads [currentProject.subdomain] without
    a guard: it throws a [TypeError] exactly when the query is neither
    loading nor in error and there is no current project.  While loading,
    and when the query reports an error, the missing project goes
    unnoticed. *)
Theorem AzureADProviderSettings_TypeError_iff `{Imports}
    (maintenanceActive : bool) (currentProject : option Project)
    (query : QueryResult SignInMethods.Data)
    (mounted : option UseFormReturn) :
  (exists access,
     outcome (AzureADProviderSettings maintenanceActive currentProject
                query mounted) = inl (ThrownTypeError access))
  <-> loading query = false /\ error query = None /\ currentProject = None.
Proof.
  unfold AzureADProviderSettings.
  destruct query as [d [|] [e|]], currentProject as [p|];
    cbn [loading error]; split;
    try (intros [access Hthrown]; discriminate Hthrown);
    try (intros (Hl & He & Hp); discriminate).
  - intros _. auto.
  - intros _. eexists. reflexivity.
Qed.

Lemma AzureADProviderSettings_TypeError_iff_witness :
  exists access,
    outcome (AzureADProviderSettings (H := Sample.imports) false None
               Sample.loadedSignInQuery None)
    = inl (ThrownTypeError access).
Proof.
  apply (proj2 (AzureADProviderSettings_TypeError_iff (H := Sample.imports)
                  false None Sample.loadedSignInQuery None)).
  repeat split; reflexivity.
Defined.

Lemma hidden_unless_true (o : option bool) (A : Type) (x y : A) :
  (if bool_or o false then x else y)
  = if bool_decide (o = Some true) then x else y.
Proof. by destruct o as [[|]|]. Qed.

(** X8: the fields of the Azure AD form are hidden unless the switch is
    on: the class list handed to [twMerge] ends in 'hidden' unless the
    form's current [enabled] is [true]; at the first render that is unless
    the cached configuration has [azuread.enabled] set to [true], so a
    project without the subtree starts with its fields hidden. *)
Theorem fields_hidden_unless_enabled `{Imports}
    (maintenanceActive : bool) (currentProject : Project)
    (data_ : option SignInMethods.Data) (form : UseFormReturn) :
  (exists tree,
     outcome (AzureADProviderSettings maintenanceActive
                (Some currentProject)
                {| data := data_; loading := false; error := None |}
                (Some form)) = inr tree
     /\ fieldsClassName tree
        = Some (twMerge
                  [Some (lit "grid grid-flow-row grid-cols-2 gap-y-4 gap-x-3 px-4 py-2");
                   if bool_decide (enabled (form_values form) = Some true)
                   then None else Some (lit "hidden")]))
  /\
  (exists tree,
     outcome (AzureADProviderSettings maintenanceActive
                (Some currentProject)
                {| data := data_; loading := false; error := None |}
                None) = inr tree
     /\ fieldsClassName tree
        = Some (twMerge
                  [Some (lit "grid grid-flow-row grid-cols-2 gap-y-4 gap-x-3 px-4 py-2");
                   if bool_decide
                        (data_ ?. SignInMethods.config ?. SignInMethods.auth
                               ?. SignInMethods.method ?. SignInMethods.oauth
                               ?. SignInMethods.azuread
                               ?. SignInMethods.enabled = Some true)
                   then None else Some (lit "hidden")])).
Proof.
  split; eexists; (split; [reflexivity|]).
  - rewrite <- hidden_unless_true. reflexivity.
  - rewrite <- hidden_unless_true.
    set (cached := data_ ?. SignInMethods.config ?. SignInMethods.auth
                         ?. SignInMethods.method ?. SignInMethods.oauth
                         ?. SignInMethods.azuread ?. SignInMethods.enabled).
    transitivity
      (Some (twMerge
               [Some (lit "grid grid-flow-row grid-cols-2 gap-y-4 gap-x-3 px-4 py-2");
                if bool_or (Some (bool_or cached false)) false
                then None else Some (lit "hidden")]));
      [reflexivity|].
    by rewrite bool_or_Some_false.
Qed.

Lemma handlers_opt_str (s : option jsstring) : handlers_val (opt_str s) = [].
Proof. by destruct s. Qed.

Lemma handlers_values_obj `{Imports} (values : AzureADProviderFormValues) :
  handlers_val (values_obj values) = [].
Proof.
  destruct values as [[c|] [s|] [t|] [e|]]; reflexivity.
Qed.

(** X9: when the form is shown, the render calls [generateAppServiceUrl]
    once, for the service 'auth' with the project's subdomain as it is
    (also when it is missing or empty) and its region, and without slugs;
    the Redirect URL input is disabled, shows the returned URL followed by
    '/signin/provider/azuread/callback', and its copy button copies that
    very string under the label 'Redirect URL', after stopping the
    click's propagation. *)
Theorem redirect_url_shown_and_copied `{Imports}
    (maintenanceActive : bool) (currentProject : Project)
    (data_ : option SignInMethods.Data) (mounted : option UseFormReturn) :
  exists tree,
    AzureADProviderSettings maintenanceActive (Some currentProject)
      {| data := data_; loading := false; error := None |} mounted
    = ([ {| call_subdomain := subdomain currentProject;
            call_region := Some (region currentProject);
            call_service := "auth";
            call_localBackendSlugs := None;
            call_remoteBackendSlugs := None |} ],
       inr tree)
    /\ settingsChild 2 tree
         ?. (fun input => prop "defaultValue" (props_of input)) ?. as_str
       = Some (generateAppServiceUrl (subdomain currentProject)
                 (Some (region currentProject)) "auth" None None
               ++ lit "/signin/provider/azuread/callback")
    /\ settingsChild 2 tree
         ?. (fun input => prop "disabled" (props_of input)) ?. as_bool
       = Some true
    /\ handlers tree
       = [ACallback "handleProviderUpdate";
          ACallback "register('tenant').onChange";
          ACallback "register('tenant').onBlur";
          AStopPropagationThen
            (ACopy (generateAppServiceUrl (subdomain currentProject)
                      (Some (region currentProject)) "auth" None None
                    ++ lit "/signin/provider/azuread/callback")
               (lit "Redirect URL"))].
Proof.
  eexists. split; [reflexivity|].
  split; [reflexivity|]. split; [reflexivity|].
  cbn [handlers handlers_val fmap list_fmap concat app snd props_of].
  rewrite !handlers_values_obj, handlers_opt_str. reflexivity.
Qed.

(** What the resolver leaves at [tenant]. *)
Lemma error_at_tenant (defaults values : AzureADProviderFormValues)
    (submitting : bool) :
  error_at "tenant"
    {| form_defaultValues := defaults; form_values := values;
       form_errors := validationSchema values;
       form_isSubmitting := submitting |}
  = if bool_decide (enabled values = Some true)
       && negb (truthy (tenant values))
    then Some (Yup.RequiredError "tenant" (lit "Tenant"))
    else None.
Proof.
  unfold error_at, validationSchema, clientId_schema, clientSecret_schema,
    tenant_schema, Yup.when, Yup.validate_string, Yup.validate_boolean.
  cbn [form_errors].
  destruct (enabled values) as [[|]|]; cbn [bool_decide];
    destruct (truthy (clientId values)), (truthy (clientSecret values)),
             (truthy (tenant values)); reflexivity.
Qed.

(** X10: after the resolver has run on the form's values, the Tenant ID
    input is marked as in error exactly when the switch is on and the
    tenant is missing or empty, and then its helper text is 'Tenant is a
    required field'; otherwise it has no helper text. *)
Theorem tenant_input_error `{Imports}
    (maintenanceActive : bool) (currentProject : Project)
    (data_ : option SignInMethods.Data)
    (defaults values : AzureADProviderFormValues) (submitting : bool) :
  exists tree,
    outcome (AzureADProviderSettings maintenanceActive (Some currentProject)
               {| data := data_; loading := false; error := None |}
               (Some {| form_defaultValues := defaults;
                        form_values := values;
                        form_errors :=
                          resolver (useFormProps data_) values;
                        form_isSubmitting := submitting |})) = inr tree
    /\ settingsChild 1 tree
         ?. (fun input => prop "name" (props_of input)) ?. as_str
       = Some (lit "tenant")
    /\ settingsChild 1 tree
         ?. (fun input => prop "error" (props_of input)) ?. as_bool
       = Some (bool_decide (enabled values = Some true)
               && negb (truthy (tenant values)))
    /\ settingsChild 1 tree
         ?. (fun input => prop "helperText" (props_of input))
       = Some (if bool_decide (enabled values = Some true)
                  && negb (truthy (tenant values))
               then VStr (lit "Tenant is a required field")
               else VUndefined).
Proof.
  eexists. split; [reflexivity|]. split; [reflexivity|].
  set (form := {| form_defaultValues := defaults; form_values := values;
                  form_errors := validationSchema values;
                  form_isSubmitting := submitting |}).
  split.
  - transitivity (Some (bool_decide (is_Some (error_at "tenant" form))));
      [reflexivity|].
    unfold form. rewrite error_at_tenant.
    by destruct (bool_decide (enabled values = Some true)
                 && negb (truthy (tenant values))).
  - transitivity (Some (opt_str (Yup.message_of <$> error_at "tenant" form)));
      [reflexivity|].
    unfold form. rewrite error_at_tenant.
    by destruct (bool_decide (enabled values = Some true)
                 && negb (truthy (tenant values))).
Qed.

(** X11: at its first render the form is never dirty: its values are the
    defaults just made, all four of them defined, and the submit button is
    disabled, whatever the cached configuration and the maintenance
    mode. *)
Theorem first_render_submit_disabled `{Imports}
    (maintenanceActive : bool) (currentProject : Project)
    (data_ : option SignInMethods.Data) :
  exists tree,
    outcome (AzureADProviderSettings maintenanceActive (Some currentProject)
               {| data := data_; loading := false; error := None |} None)
    = inr tree
    /\ submitButtonDisabled tree = Some true
    /\ isDirty (useForm (useFormProps data_) None) = false
    /\ form_values (useForm (useFormProps data_) None)
       = form_defaultValues (useForm (useFormProps data_) None)
    /\ is_Some (clientId (form_values (useForm (useFormProps data_) None)))
    /\ is_Some
         (clientSecret (form_values (useForm (useFormProps data_) None)))
    /\ is_Some (tenant (form_values (useForm (useFormProps data_) None)))
    /\ is_Some (enabled (form_values (useForm (useFormProps data_) None))).
Proof.
  assert (Hclean : isDirty (useForm (useFormProps data_) None) = false).
  { unfold isDirty, useForm. cbn [form_values form_defaultValues].
    by rewrite bool_decide_eq_true_2. }
  eexists. split; [reflexivity|]. split.
  - transitivity
      (Some (negb (isDirty (useForm (useFormProps data_) None))
             || maintenanceActive)); [reflexivity|].
    by rewrite Hclean.
  - split; [exact Hclean|]. split; [reflexivity|].
    repeat split; eexists; reflexivity.
Qed.

(** X12: a submission and the render after it.  After a submission whose
    mutation resolved, the form is shown with its submit button disabled,
    until the values are edited again; after one whose mutation rejected,
    the button is as it was before the submission, so the same values can
    be sent again. *)
Theorem submit_then_render `{Imports}
    (respond : UpdateConfigVariables -> Settled unit)
    (maintenanceActive : bool) (currentProject : Project)
    (data_ : option SignInMethods.Data)
    (values : AzureADProviderFormValues) (w : World) :
  (respond {| appId := id currentProject;
              config :=
                {| auth :=
                     {| method := {| oauth := {| azuread := values |} |} |}
                |} |} = Fulfilled tt ->
   exists tree,
     outcome (AzureADProviderSettings maintenanceActive
                (Some currentProject)
                {| data := data_; loading := false; error := None |}
                (Some (world_form
                         (handleProviderUpdate respond (Some currentProject)
                            values w).1))) = inr tree
     /\ submitButtonDisabled tree = Some true)
  /\
  (forall reason,
     respond {| appId := id currentProject;
                config :=
                  {| auth :=
                       {| method := {| oauth := {| azuread := values |} |} |}
                  |} |} = Rejected reason ->
     exists tree,
       outcome (AzureADProviderSettings maintenanceActive
                  (Some currentProject)
                  {| data := data_; loading := false; error := None |}
                  (Some (world_form
                           (handleProviderUpdate respond
                              (Some currentProject) values w).1))) = inr tree
       /\ submitButtonDisabled tree
          = Some (negb (isDirty (world_form w)) || maintenanceActive)).
Proof.
  rewrite handleProviderUpdate_run. cbn [fst world_form].
  split.
  - intros ->. eexists. split; [reflexivity|].
    transitivity
      (Some (negb (isDirty (reset values (world_form w)))
             || maintenanceActive)); [reflexivity|].
    unfold isDirty, reset. cbn [form_values form_defaultValues].
    by rewrite bool_decide_eq_true_2.
  - intros reason ->. eexists. split; reflexivity.
Qed.

Lemma submit_then_render_witness :
  exists tree,
    outcome (AzureADProviderSettings (H := Sample.imports) false
               (Some Sample.project) Sample.loadedSignInQuery
               (Some (world_form
                        (handleProviderUpdate (H := Sample.imports)
                           (fun _ => Fulfilled tt) (Some Sample.project)
                           Sample.filledIn Sample.world).1))) = inr tree
    /\ submitButtonDisabled tree = Some true.
Proof.
  exact (proj1 (submit_then_render (H := Sample.imports)
                  (fun _ => Fulfilled tt) false Sample.project
                  (Some {| SignInMethods.config := None |})
                  Sample.filledIn Sample.world) eq_refl).
Defined.

(** ** The validation schema and the submit handler *)

(** The schema, field by field. *)
Lemma validationSchema_cases (values : AzureADProviderFormValues) :
  validationSchema values
  = if bool_decide (enabled values = Some true) then
      (if truthy (clientId values) then []
       else [Yup.RequiredError "clientId" (lit "Client ID")])
      ++ (if truthy (clientSecret values) then []
          else [Yup.RequiredError "clientSecret" (lit "Client Secret")])
      ++ (if truthy (tenant values) then []
          else [Yup.RequiredError "tenant" (lit "Tenant")])
    else [].
Proof.
  unfold validationSchema, clientId_schema, clientSecret_schema,
    tenant_schema, Yup.when, Yup.validate_string, Yup.validate_boolean.
  destruct (enabled values) as [[|]|];
    destruct (truthy (clientId values)), (truthy (clientSecret values)),
             (truthy (tenant values)); reflexivity.
Qed.

(** X13: what the schema reports.  An error is reported exactly for each
    of [clientId], [clientSecret] and [tenant] that is missing or empty
    while [enabled] is [true], under the labels 'Client ID', 'Client
    Secret' and 'Tenant'; [enabled] itself is never reported, no field is
    reported twice, and nothing is reported while [enabled] is [false] or
    missing. *)
Theorem validationSchema_reports
    (values : AzureADProviderFormValues) (e : Yup.ValidationError) :
  (e ∈ validationSchema values
   <-> enabled values = Some true
       /\ ((e = Yup.RequiredError "clientId" (lit "Client ID")
            /\ truthy (clientId values) = false)
           \/ (e = Yup.RequiredError "clientSecret" (lit "Client Secret")
               /\ truthy (clientSecret values) = false)
           \/ (e = Yup.RequiredError "tenant" (lit "Tenant")
               /\ truthy (tenant values) = false)))
  /\ NoDup (Yup.path_of <$> validationSchema values)
  /\ "enabled" ∉ (Yup.path_of <$> validationSchema values).
Proof.
  rewrite validationSchema_cases.
  destruct (enabled values) as [[|]|];
    [rewrite bool_decide_eq_true_2 by reflexivity
    |rewrite bool_decide_eq_false_2 by discriminate
    |rewrite bool_decide_eq_false_2 by discriminate];
    destruct (truthy (clientId values)), (truthy (clientSecret values)),
             (truthy (tenant values));
    cbn [app fmap list_fmap Yup.path_of];
    (split; [|split]).
  all: try (rewrite ?elem_of_cons, ?elem_of_nil;
            intuition (discriminate || congruence)).
  all: repeat (apply NoDup_cons; split;
               [rewrite ?elem_of_cons, ?elem_of_nil;
                intuition discriminate|]);
       apply NoDup_nil_2.
Qed.

Lemma validationSchema_reports_witness :
  Yup.RequiredError "tenant" (lit "Tenant")
  ∈ validationSchema Sample.switchedOn.
Proof.
  apply (proj2 (proj1 (validationSchema_reports Sample.switchedOn
                         (Yup.RequiredError "tenant" (lit "Tenant"))))).
  split; [reflexivity|]. right. right. split; reflexivity.
Defined.


(** X14: the promise of [handleProviderUpdate] rejects exactly when there
    is no current project: [currentProject.id] is read before the [try],
    so the [TypeError] is not caught, and by then nothing has happened:
    no mutation was sent, no toast shown, the form is untouched.  With a
    project, the promise fulfils whatever the mutation does. *)
Theorem handleProviderUpdate_rejects_iff `{Imports}
    (respond : UpdateConfigVariables -> Settled unit)
    (currentProject : option Project) (values : AzureADProviderFormValues)
    (w : World) :
  ((exists reason,
      (handleProviderUpdate respond currentProject values w).2
      = Rejected reason)
   <-> currentProject = None)
  /\ (currentProject = None ->
      handleProviderUpdate respond currentProject values w
      = (w, Rejected (ThrownTypeError "currentProject.id")))
  /\ (is_Some currentProject ->
      (handleProviderUpdate respond currentProject values w).2
      = Fulfilled tt).
Proof.
  destruct currentProject as [p|].
  - rewrite handleProviderUpdate_run. cbn [snd].
    split; [split|split].
    + intros [reason Hrejected]. discriminate.
    + discriminate.
    + discriminate.
    + reflexivity.
  - split; [split|split].
    + reflexivity.
    + intros _. eexists. reflexivity.
    + reflexivity.
    + intros [p Hp]. discriminate.
Qed.

Lemma handleProviderUpdate_rejects_iff_witness :
  handleProviderUpdate (H := Sample.imports) (fun _ => Fulfilled tt) None
    Sample.filledIn Sample.world
  = (Sample.world, Rejected (ThrownTypeError "currentProject.id"))
  /\ (handleProviderUpdate (H := Sample.imports)
        (fun _ => Rejected (ThrownApolloError Sample.queryError))
        (Some Sample.project) Sample.filledIn Sample.world).2
     = Fulfilled tt.
Proof.
  split.
  - exact (proj1 (proj2 (handleProviderUpdate_rejects_iff
                           (H := Sample.imports) (fun _ => Fulfilled tt)
                           None Sample.filledIn Sample.world)) eq_refl).
  - apply (proj2 (proj2 (handleProviderUpdate_rejects_iff
                           (H := Sample.imports)
                           (fun _ => Rejected
                                       (ThrownApolloError Sample.queryError))
                           (Some Sample.project) Sample.filledIn
                           Sample.world))).
    eexists. reflexivity.
Defined.

(** X15: a submission that failed can be repeated.  When the same values
    are submitted twice, the mutation rejecting the first time and
    resolving the second, the same mutation is sent twice, the toaster
    shows loading, error, loading, success in this order, the second
    promise fulfils, and the form ends reset to the submitted values. *)
Theorem retry_after_failure `{Imports}
    (first second : UpdateConfigVariables -> Settled unit)
    (currentProject : Project) (values : AzureADProviderFormValues)
    (w : World) (reason : Thrown) :
  first {| appId := id currentProject;
           config :=
             {| auth :=
                  {| method := {| oauth := {| azuread := values |} |} |} |}
        |} = Rejected reason ->
  second {| appId := id currentProject;
            config :=
              {| auth :=
                   {| method := {| oauth := {| azuread := values |} |} |} |}
         |} = Fulfilled tt ->
  then_ (handleProviderUpdate first (Some currentProject) values)
    (fun _ => handleProviderUpdate second (Some currentProject) values) w
  = ({| world_form := reset values (world_form w);
        world_toasts :=
          world_toasts w
          ++ [ToastLoading (lit "Azure AD settings are being updated...")
                getToastStyleProps;
              ToastError
                (resolveValue
                   (getServerError
                      (lit "An error occurred while trying to update the project's Azure AD settings."))
                   reason)
                getToastStyleProps;
              ToastLoading (lit "Azure AD settings are being updated...")
                getToastStyleProps;
              ToastSuccess
                (lit "Azure AD settings have been updated successfully.")
                getToastStyleProps];
        world_mutations :=
          world_mutations w
          ++ [{| appId := id currentProject;
                 config :=
                   {| auth :=
                        {| method := {| oauth := {| azuread := values |} |}
                        |} |} |};
              {| appId := id currentProject;
                 config :=
                   {| auth :=
                        {| method := {| oauth := {| azuread := values |} |}
                        |} |} |}] |},
     Fulfilled tt).
Proof.
  intros Hfirst Hsecond.
  unfold then_ at 1.
  rewrite handleProviderUpdate_run, Hfirst.
  rewrite handleProviderUpdate_run, Hsecond.
  cbn [world_form world_toasts world_mutations].
  by rewrite <- !app_assoc.
Qed.

Lemma retry_after_failure_witness :
  (then_ (handleProviderUpdate (H := Sample.imports)
            (fun _ => Rejected (ThrownApolloError Sample.queryError))
            (Some Sample.project) Sample.filledIn)
     (fun _ => handleProviderUpdate (H := Sample.imports)
                 (fun _ => Fulfilled tt) (Some Sample.project)
                 Sample.filledIn) Sample.world).2
  = Fulfilled tt.
Proof.
  rewrite (retry_after_failure (H := Sample.imports)
             (fun _ => Rejected (ThrownApolloError Sample.queryError))
             (fun _ => Fulfilled tt) Sample.project Sample.filledIn
             Sample.world (ThrownApolloError Sample.queryError)
             eq_refl eq_refl).
  reflexivity.
Defined.

(** ** CustomDomains *)

(** X16: [CustomDomains] reads [currentProject.plan.isFree] without a
    guard and nothing else of the project: without a current project it
    throws a [TypeError]; two projects on plans with the same [isFree]
    get the same page; and the page is made without any call of
    [generateAppServiceUrl] and carries no event handler. *)
Theorem CustomDomains_reads_plan_only `{Imports}
    (project1 project2 : Project) :
  outcome (CustomDomains None) = inl (ThrownTypeError "currentProject.plan")
  /\ calls (CustomDomains (Some project1)) = []
  /\ (exists page,
        outcome (CustomDomains (Some project1)) = inr page
        /\ handlers page = [])
  /\ (isFree (plan project1) = isFree (plan project2) ->
      CustomDomains (Some project1) = CustomDomains (Some project2)).
Proof.
  split; [reflexivity|].
  unfold CustomDomains, member. rewrite !bind_ret_l.
  split; [|split].
  - by destruct (isFree (plan project1)).
  - destruct (isFree (plan project1)); eexists; split; reflexivity.
  - by intros ->.
Qed.

Lemma CustomDomains_reads_plan_only_witness :
  CustomDomains (H := Sample.imports) (Some Sample2.freeProject)
  = CustomDomains (H := Sample.imports) (Some Sample2.anotherFreeProject).
Proof.
  apply (CustomDomains_reads_plan_only (H := Sample.imports)
           Sample2.freeProject Sample2.anotherFreeProject).
  reflexivity.
Defined.
